(** * OAuth2 / OpenID Connect session store and consent handler

    A shallow embedding of the [oidc.OpenIDConnectStore] methods and of the
    consent handlers ([oidcConsentPOST], [oidcConsentGetSessionsAndClient]),
    with the storage provider kept abstract as an interface, followed by the
    properties of the session and consent engine. *)

From Stdlib Require Import ZArith.
From Stdlib Require DecimalString.
From stdpp Require Import base strings list gmap.

Local Open Scope string_scope.

(** ** Go errors

    Sentinel errors are distinct values compared by identity; [fmt_Errorf_w]
    is an error built with [fmt.Errorf("...: %w", err)], whose [Unwrap] gives
    back the wrapped error. *)
Module errors.

Inductive error : Type :=
| sql_ErrNoRows
| fosite_ErrNotFound
| fosite_ErrJTIKnown
| fosite_ErrInvalidatedAuthorizeCode
| errors_New (msg : string)
| fmt_Errorf_w (msg : string) (wrapped : error).

#[global] Instance error_eq_dec : EqDecision error.
Proof. solve_decision. Defined.

(** The loop of [errors.Is] for non-nil arguments: compare, then unwrap. None
    of the errors above carries an [Is] method that matches another value. *)
Fixpoint is_chain (err target : error) : bool :=
  if decide (err = target) then true
  else match err with
       | fmt_Errorf_w _ wrapped => is_chain wrapped target
       | _ => false
       end.

(** [errors.Is(err, target)]; [None] is the nil error. *)
Definition Is (err target : option error) : bool :=
  match err, target with
  | Some e, Some t => is_chain e t
  | None, None => true
  | _, _ => false
  end.

End errors.
Export errors.

(** A Go [(value, err)] result of a call that yields either a non-nil value
    or a non-nil error. *)
Inductive result (A : Type) : Type :=
| Ok (a : A)
| Err (e : error).
Arguments Ok {A} a.
Arguments Err {A} e.

(** [err] of a result, as the Go caller sees it. *)
Definition err_of {A} (r : result A) : option error :=
  match r with Ok _ => None | Err e => Some e end.

(** [uuid.UUID] is a 16 byte array; it is kept as the number it encodes, and
    the zero value is [uuid.Nil]. *)
Definition UUID : Type := N.
Definition uuid_Nil : UUID := 0%N.

(** [time.Time] as an instant on the integer time line. *)
Definition Time : Type := Z.

(** [t.After(u)]. *)
Definition After (t u : Time) : bool := (u <? t)%Z.

(** ** [authorization] and [authentication] levels *)
Module authorization.

(** Modelled from the spec: the [authorization.Level] type is declared
    outside the files at hand; the required policy level is an ordered enum
    none < one-factor < two-factor. *)
Inductive Level : Type := Bypass | OneFactor | TwoFactor.

#[global] Instance Level_eq_dec : EqDecision Level.
Proof. solve_decision. Defined.

Definition rank (l : Level) : nat :=
  match l with Bypass => 0 | OneFactor => 1 | TwoFactor => 2 end.

End authorization.

Module authentication.

(** Modelled from the spec: the caller's current authentication level, declared
    outside the files at hand. *)
Inductive Level : Type := NotAuthenticated | OneFactor | TwoFactor.

End authentication.

(** ** [model]: the persisted entities *)
Module model.

Record UserOpaqueIdentifier : Type := {
  Service : string;
  SectorID : string;
  Username : string;
  Identifier : UUID;
}.

Record OAuth2BlacklistedJTI : Type := {
  jti_Signature : string;
  ExpiresAt : Time;
}.

(** The session row.  [Session] and [Form] are the serialized request
    context; [Active] is read by [loadSessionBySignature]. *)
Record OAuth2Session : Type := {
  Signature : string;
  RequestID : string;
  session_ClientID : string;
  Subject : string;
  Active : bool;
  Revoked : bool;
  Session : string;
  Form : string;
}.

(** Modelled from the spec: the decision state of a consent session is
    tri-state, pending / granted / denied. *)
Inductive Decision : Type := Pending | Granted | Denied.

#[global] Instance Decision_eq_dec : EqDecision Decision.
Proof. solve_decision. Defined.

Record OAuth2ConsentSession : Type := {
  ChallengeID : UUID;
  ClientID : string;
  consent_Subject : string;
  Authorized : Decision;
  consent_Form : string;
  RequestedScopes : list string;
  GrantedScopes : list string;
  RequestedAudience : list string;
  GrantedAudience : list string;
}.

(** [model.OIDCWorkflowSession], the field the consent decision reads for
    its debug message. *)
Record OIDCWorkflowSession : Type := {
  RequiredAuthorizationLevel : authorization.Level;
}.

End model.
Export model.

(** ** [storage]: the provider interface *)
Module storage.

Inductive OAuth2SessionType : Type :=
| OAuth2SessionTypeAuthorizeCode
| OAuth2SessionTypeAccessToken
| OAuth2SessionTypeRefreshToken
| OAuth2SessionTypePKCEChallenge
| OAuth2SessionTypeOpenIDConnect.

#[global] Instance OAuth2SessionType_eq_dec : EqDecision OAuth2SessionType.
Proof. solve_decision. Defined.

(** [storage.Provider], restricted to the calls made by the store and the
    consent handlers.  [St] is the content of the storage; a read returns
    what it finds, a write returns the new content and its error.
    [LoadUserOpaqueIdentifierBySignature] may answer [(nil, nil)]. *)
Class Provider (St : Type) : Type := {
  LoadUserOpaqueIdentifierBySignature :
    St → string → string → string → option UserOpaqueIdentifier * option error;
  SaveUserOpaqueIdentifier : St → UserOpaqueIdentifier → St * option error;
  LoadOAuth2BlacklistedJTI : St → string → result OAuth2BlacklistedJTI;
  SaveOAuth2BlacklistedJTI : St → OAuth2BlacklistedJTI → St * option error;
  LoadOAuth2Session : St → OAuth2SessionType → string → result OAuth2Session;
  SaveOAuth2Session : St → OAuth2SessionType → OAuth2Session → St * option error;
  DeactivateOAuth2Session : St → OAuth2SessionType → string → St * option error;
  RevokeOAuth2Session : St → OAuth2SessionType → string → St * option error;
  DeactivateOAuth2SessionByRequestID :
    St → OAuth2SessionType → string → St * option error;
  RevokeOAuth2SessionByRequestID :
    St → OAuth2SessionType → string → St * option error;
  LoadOAuth2ConsentSessionByChallengeID : St → UUID → result OAuth2ConsentSession;
  SaveOAuth2ConsentSessionResponse :
    St → OAuth2ConsentSession → bool → St * option error;
}.

End storage.
Export storage.

(** ** [oidc]: the OpenID Connect store *)
Module oidc.

(** [schema.OpenIDConnectClientConfiguration], the fields the store reads. *)
Record OpenIDConnectClientConfiguration : Type := {
  cfg_ID : string;
  cfg_Policy : string;
}.

Record OpenIDConnectConfiguration : Type := {
  Clients : list OpenIDConnectClientConfiguration;
}.

(** [oidc.Client], the fields the store and the consent handlers read. *)
Record Client : Type := {
  ID : string;
  Policy : authorization.Level;
}.

(** The store holds the provider (the [Provider] instance below) and the
    client registry, a Go [map[string]*Client]. *)
Record OpenIDConnectStore : Type := {
  clients : gmap string Client;
}.

(** Modelled from the spec: [model.NewUserOpaqueIdentifier] is declared
    outside the files at hand; on a miss a fresh random UUID is generated for
    the triple.  [entropy] is the outcome of the random source. *)
Definition NewUserOpaqueIdentifier (entropy : result UUID)
    (service sectorID username : string) : result UserOpaqueIdentifier :=
  match entropy with
  | Ok u => Ok {| Service := service; SectorID := sectorID;
                  Username := username; Identifier := u |}
  | Err e => Err e
  end.

Section Store.

Context {St : Type} `{!Provider St}.

(** Collaborators declared outside the files at hand, taken as parameters:
    the hexadecimal SHA-256 digest [fmt.Sprintf("%x", sha256.Sum256(b))], the
    fosite request and session types with the two conversions of
    [model.OAuth2Session], and the client constructor. *)
Variable sha256_hex : string → string.
Variable Requester : Type.
Variable fosite_Session : Type.
Variable ToRequest : OAuth2Session → fosite_Session → result Requester.
Variable NewOAuth2SessionFromRequest : string → Requester → result OAuth2Session.
Variable NewClient : OpenIDConnectClientConfiguration → Client.

(** Modelled from the spec: [model.NewOAuth2BlacklistedJTI] is declared
    outside the files at hand; an entry is identified by the digest of the
    JWT ID and carries the expiry. *)
Definition NewOAuth2BlacklistedJTI (jti : string) (exp : Time) : OAuth2BlacklistedJTI :=
  {| jti_Signature := sha256_hex jti; ExpiresAt := exp |}.

Definition NewOpenIDConnectStore (config : OpenIDConnectConfiguration) : OpenIDConnectStore :=
  {| clients := foldl (λ m client, <[cfg_ID client := NewClient client]> m) ∅ (Clients config) |}.

(** [concurrent] is what other requests commit to the storage while this one
    is suspended between its read and its write; it is the identity when the
    request runs alone. *)
Definition GenerateOpaqueUserID (s : OpenIDConnectStore) (concurrent : St → St)
    (entropy : result UUID) (db : St) (sectorID username : string)
    : (option UserOpaqueIdentifier * option error) * St :=
  match LoadUserOpaqueIdentifierBySignature db "openid" sectorID username with
  | (opaqueID, Some err) => ((opaqueID, Some err), db)
  | (Some opaqueID, None) => ((Some opaqueID, None), db)
  | (None, None) =>
      match NewUserOpaqueIdentifier entropy "openid" sectorID username with
      | Err err => ((None, Some err), db)
      | Ok opaqueID =>
          match SaveUserOpaqueIdentifier (concurrent db) opaqueID with
          | (db', Some err) => ((Some opaqueID, Some err), db')
          | (db', None) => ((Some opaqueID, None), db')
          end
      end
  end.

(** [GenerateOpaqueUserID] never returns a nil identifier with a nil error
    (see [GenerateOpaqueUserID_not_nil_nil]), so the last case, a nil
    dereference in Go, is never taken. *)
Definition GetSubject (s : OpenIDConnectStore) (concurrent : St → St)
    (entropy : result UUID) (db : St) (sectorID username : string)
    : (UUID * option error) * St :=
  match GenerateOpaqueUserID s concurrent entropy db sectorID username with
  | ((_, Some err), db') => ((uuid_Nil, Some err), db')
  | ((Some opaqueID, None), db') => ((Identifier opaqueID, None), db')
  | ((None, None), db') => ((uuid_Nil, None), db')
  end.

Definition GetFullClient (s : OpenIDConnectStore) (id : string) : result Client :=
  match clients s !! id with
  | None => Err fosite_ErrNotFound
  | Some client => Ok client
  end.

Definition GetClientPolicy (s : OpenIDConnectStore) (id : string) : authorization.Level :=
  match GetFullClient s id with
  | Err _ => authorization.TwoFactor
  | Ok client => Policy client
  end.

Definition IsValidClientID (s : OpenIDConnectStore) (id : string) : bool :=
  match GetFullClient s id with
  | Err _ => false
  | Ok _ => true
  end.

Definition GetClient (s : OpenIDConnectStore) (id : string) : result Client :=
  GetFullClient s id.

Definition ClientAssertionJWTValid (s : OpenIDConnectStore) (now : Time) (db : St)
    (jti : string) : option error :=
  let signature := sha256_hex jti in
  let r := LoadOAuth2BlacklistedJTI db signature in
  if errors.Is (Some sql_ErrNoRows) (err_of r) then None
  else match r with
       | Err err => Some err
       | Ok blacklistedJTI =>
           if After (ExpiresAt blacklistedJTI) now then Some fosite_ErrJTIKnown
           else None
       end.

Definition SetClientAssertionJWT (s : OpenIDConnectStore) (db : St) (jti : string)
    (exp : Time) : St * option error :=
  let blacklistedJTI := NewOAuth2BlacklistedJTI jti exp in
  SaveOAuth2BlacklistedJTI db blacklistedJTI.

Definition IsJWTUsed (s : OpenIDConnectStore) (now : Time) (db : St) (jti : string)
    : bool * option error :=
  match ClientAssertionJWTValid s now db jti with
  | Some err => (true, Some err)
  | None => (false, None)
  end.

Definition MarkJWTUsedForTime (s : OpenIDConnectStore) (db : St) (jti : string)
    (exp : Time) : St * option error :=
  SetClientAssertionJWT s db jti exp.

Definition loadSessionBySignature (s : OpenIDConnectStore) (db : St)
    (sessionType : OAuth2SessionType) (signature : string) (session : fosite_Session)
    : option Requester * option error :=
  match LoadOAuth2Session db sessionType signature with
  | Err err =>
      if errors.Is (Some err) (Some sql_ErrNoRows) then (None, Some fosite_ErrNotFound)
      else (None, Some err)
  | Ok sessionModel =>
      match ToRequest sessionModel session with
      | Err err => (None, Some err)
      | Ok r =>
          if negb (Active sessionModel)
             && bool_decide (sessionType = OAuth2SessionTypeAuthorizeCode)
          then (Some r, Some fosite_ErrInvalidatedAuthorizeCode)
          else (Some r, None)
      end
  end.

Definition saveSession (s : OpenIDConnectStore) (db : St)
    (sessionType : OAuth2SessionType) (signature : string) (r : Requester)
    : St * option error :=
  match NewOAuth2SessionFromRequest signature r with
  | Err err => (db, Some err)
  | Ok session => SaveOAuth2Session db sessionType session
  end.

Definition revokeSessionBySignature (s : OpenIDConnectStore) (db : St)
    (sessionType : OAuth2SessionType) (signature : string) : St * option error :=
  RevokeOAuth2Session db sessionType signature.

Definition revokeSessionByRequestID (s : OpenIDConnectStore) (db : St)
    (sessionType : OAuth2SessionType) (requestID : string) : St * option error :=
  match RevokeOAuth2SessionByRequestID db sessionType requestID with
  | (db', Some err) =>
      if errors.Is (Some err) (Some sql_ErrNoRows) then (db', Some fosite_ErrNotFound)
      else (db', Some err)
  | (db', None) => (db', None)
  end.

Definition CreateAuthorizeCodeSession s db (code : string) (request : Requester) :=
  saveSession s db OAuth2SessionTypeAuthorizeCode code request.

Definition InvalidateAuthorizeCodeSession (s : OpenIDConnectStore) (db : St)
    (code : string) : St * option error :=
  DeactivateOAuth2Session db OAuth2SessionTypeAuthorizeCode code.

Definition GetAuthorizeCodeSession s db (code : string) (session : fosite_Session) :=
  loadSessionBySignature s db OAuth2SessionTypeAuthorizeCode code session.

Definition CreateAccessTokenSession s db (signature : string) (request : Requester) :=
  saveSession s db OAuth2SessionTypeAccessToken signature request.

Definition DeleteAccessTokenSession s db (signature : string) :=
  revokeSessionBySignature s db OAuth2SessionTypeAccessToken signature.

Definition RevokeAccessToken s db (requestID : string) :=
  revokeSessionByRequestID s db OAuth2SessionTypeAccessToken requestID.

Definition GetAccessTokenSession s db (signature : string) (session : fosite_Session) :=
  loadSessionBySignature s db OAuth2SessionTypeAccessToken signature session.

Definition CreateRefreshTokenSession s db (signature : string) (request : Requester) :=
  saveSession s db OAuth2SessionTypeRefreshToken signature request.

Definition DeleteRefreshTokenSession s db (signature : string) :=
  revokeSessionBySignature s db OAuth2SessionTypeRefreshToken signature.

Definition RevokeRefreshToken (s : OpenIDConnectStore) (db : St) (requestID : string)
    : St * option error :=
  DeactivateOAuth2SessionByRequestID db OAuth2SessionTypeRefreshToken requestID.

Definition RevokeRefreshTokenMaybeGracePeriod (s : OpenIDConnectStore) (db : St)
    (requestID : string) (signature : string) : St * option error :=
  RevokeRefreshToken s db requestID.

Definition GetRefreshTokenSession s db (signature : string) (session : fosite_Session) :=
  loadSessionBySignature s db OAuth2SessionTypeRefreshToken signature session.

Definition CreatePKCERequestSession s db (signature : string) (request : Requester) :=
  saveSession s db OAuth2SessionTypePKCEChallenge signature request.

Definition DeletePKCERequestSession s db (signature : string) :=
  revokeSessionBySignature s db OAuth2SessionTypeAccessToken signature.

Definition GetPKCERequestSession s db (signature : string) (session : fosite_Session) :=
  loadSessionBySignature s db OAuth2SessionTypePKCEChallenge signature session.

Definition CreateOpenIDConnectSession s db (authorizeCode : string) (request : Requester) :=
  saveSession s db OAuth2SessionTypeOpenIDConnect authorizeCode request.

Definition DeleteOpenIDConnectSession s db (authorizeCode : string) :=
  revokeSessionBySignature s db OAuth2SessionTypeAccessToken authorizeCode.

(** The Go caller passes [request.GetSession()] as [session]. *)
Definition GetOpenIDConnectSession s db (authorizeCode : string) (session : fosite_Session) :=
  loadSessionBySignature s db OAuth2SessionTypeOpenIDConnect authorizeCode session.

End Store.

End oidc.
Export oidc.

(** ** [utils] *)
Module utils.

(** Modelled from the spec: [utils.IsStringInSlice] is declared outside the
    files at hand; it tells whether the string is already present in the
    slice. *)
Definition IsStringInSlice (needle : string) (haystack : list string) : bool :=
  existsb (String.eqb needle) haystack.

End utils.

(** ** [handlers]: the consent decision *)
Module handlers.

(** [session.UserSession], the fields the consent handlers read.  The
    session package is declared outside the files at hand.  The challenge ID
    is a pointer, compared with nil and dereferenced in
    [oidcConsentGetSessionsAndClient]; so is the workflow session,
    [*model.OIDCWorkflowSession], which is nil in a session that no
    authorization workflow has filled.  [None] is nil. *)
Record UserSession : Type := {
  us_Username : string;
  AuthenticationLevel : authentication.Level;
  ConsentChallengeID : option UUID;
  OIDCWorkflowSession : option model.OIDCWorkflowSession;
}.

Record ConsentPostRequestBody : Type := {
  body_ClientID : string;
  AcceptOrReject : string;
}.

Record ConsentPostResponseBody : Type := {
  RedirectURI : string;
}.

(** Modelled from the spec: the constants of the handlers package are
    declared outside the files at hand; the verb is one of accept and reject,
    and a caller-input error is answered with one generic failure message. *)
Definition accept : string := "accept".
Definition reject : string := "reject".
Definition messageOperationFailed : string := "Operation failed.".

(** What the handler reads from [middlewares.AutheliaCtx]: the request body,
    the user session and the outcome of [ctx.ExternalRootURL()]. *)
Record AutheliaCtx : Type := {
  RequestBody : string;
  GetSession : UserSession;
  ExternalRootURL : result string;
}.

(** What the handler answers: [ctx.ReplyForbidden()], [ctx.ReplyBadRequest()],
    [ctx.SetJSONError(message)] or [ctx.SetJSONBody(response)].  The response
    is a record of one string, whose JSON encoding does not fail.  [Panicked]
    is no answer: the handler stopped on the dereference of a nil pointer. *)
Inductive Reply : Type :=
| ReplyForbidden
| ReplyBadRequest
| SetJSONError (message : string)
| SetJSONBody (response : ConsentPostResponseBody)
| Panicked.

(** The handler succeeds when it answers with the redirect. *)
Definition succeeded (r : Reply) : bool :=
  match r with SetJSONBody _ => true | _ => false end.

Section Consent.

Context {St : Type} `{!Provider St}.

(** The run of a handler: its answer, the storage afterwards, and the consent
    session object it holds (loaded, and mutated in place on accept). *)
Record Outcome : Type := {
  reply : Reply;
  db_after : St;
  consent_after : option OAuth2ConsentSession;
}.

(** Collaborators declared outside the files at hand, taken as parameters:
    JSON decoding of the body, the parsed form [url.Values] with
    [consent.GetForm()] and [form.Encode()], [oidc.AuthorizationPath] and
    [client.IsAuthenticationLevelSufficient]. *)
Variable json_Unmarshal : string → option ConsentPostRequestBody.
Variable url_Values : Type.
Variable GetForm : OAuth2ConsentSession → option url_Values.
Variable Encode : url_Values → string.
Variable AuthorizationPath : string.
Variable IsAuthenticationLevelSufficient : Client → authentication.Level → bool.

(** [inl] is the answer already given when [ret] is true, [inr] the three
    values when [ret] is false. *)
Definition oidcConsentGetSessionsAndClient (s : OpenIDConnectStore) (ctx : AutheliaCtx)
    (db : St) : Reply + (UserSession * OAuth2ConsentSession * Client) :=
  let userSession := GetSession ctx in
  match ConsentChallengeID userSession with
  | None => inl ReplyForbidden
  | Some challengeID =>
      match LoadOAuth2ConsentSessionByChallengeID db challengeID with
      | Err _ => inl ReplyForbidden
      | Ok consent =>
          match GetFullClient s (ClientID consent) with
          | Err _ => inl ReplyForbidden
          | Ok client => inr (userSession, consent, client)
          end
      end
  end.

Definition oidcConsentPOST (s : OpenIDConnectStore) (ctx : AutheliaCtx) (db : St)
    : Outcome :=
  match json_Unmarshal (RequestBody ctx) with
  | None => Build_Outcome (SetJSONError messageOperationFailed) db None
  | Some body =>
  match oidcConsentGetSessionsAndClient s ctx db with
  | inl answered => Build_Outcome answered db None
  | inr (userSession, consent, client) =>
  if negb (IsAuthenticationLevelSufficient client (AuthenticationLevel userSession))
  then
    (* The arguments of the Debugf call are evaluated first, among them
       userSession.OIDCWorkflowSession.RequiredAuthorizationLevel. *)
    match OIDCWorkflowSession userSession with
    | None => Build_Outcome Panicked db (Some consent)
    | Some workflow =>
        let _ := RequiredAuthorizationLevel workflow in
        Build_Outcome ReplyForbidden db (Some consent)
    end
  else if negb (String.eqb (ClientID consent) (body_ClientID body))
  then Build_Outcome (SetJSONError messageOperationFailed) db (Some consent)
  else
  match GetForm consent with
  | None => Build_Outcome (SetJSONError messageOperationFailed) db (Some consent)
  | Some form =>
  (* var ( externalRootURL string; authorized = true ); switch body.AcceptOrReject.
     The append on the granted audience may share the backing array of the
     requested audience but never changes its length, so both are kept as
     lists. *)
  let decision : Reply + (string * bool * OAuth2ConsentSession) :=
    if String.eqb (AcceptOrReject body) accept then
      match ExternalRootURL ctx with
      | Err _ => inl (SetJSONError messageOperationFailed)
      | Ok externalRootURL =>
          let GrantedScopes' := RequestedScopes consent in
          let GrantedAudience' := RequestedAudience consent in
          let GrantedAudience'' :=
            if negb (utils.IsStringInSlice (ClientID consent) GrantedAudience')
            then (GrantedAudience' ++ [ClientID consent])%list
            else GrantedAudience' in
          inr (externalRootURL, true,
               {| ChallengeID := ChallengeID consent;
                  ClientID := ClientID consent;
                  consent_Subject := consent_Subject consent;
                  Authorized := Authorized consent;
                  consent_Form := consent_Form consent;
                  RequestedScopes := RequestedScopes consent;
                  GrantedScopes := GrantedScopes';
                  RequestedAudience := RequestedAudience consent;
                  GrantedAudience := GrantedAudience'' |})
      end
    else if String.eqb (AcceptOrReject body) reject then
      inr ("", false, consent)
    else inl ReplyBadRequest in
  match decision with
  | inl answered => Build_Outcome answered db (Some consent)
  | inr (externalRootURL, authorized, consent') =>
      match SaveOAuth2ConsentSessionResponse db consent' authorized with
      | (db', Some _) =>
          Build_Outcome (SetJSONError messageOperationFailed) db' (Some consent')
      | (db', None) =>
          let response :=
            {| RedirectURI := externalRootURL ++ AuthorizationPath ++ "?" ++ Encode form |} in
          Build_Outcome (SetJSONBody response) db' (Some consent')
      end
  end
  end
  end
  end.

End Consent.

End handlers.
Export handlers.

(** ** [memory]: a storage substrate holding its tables as lists of rows *)
Module memory.

(** Modelled from the spec: the SQL provider is declared outside the files at
    hand; the substrate holds five session tables (here one table keyed by the
    kind), and the consent-session, opaque-identifier and blacklisted-JTI
    tables. *)
Record DB : Type := {
  user_opaque_identifier : list UserOpaqueIdentifier;
  oauth2_blacklisted_jti : list OAuth2BlacklistedJTI;
  oauth2_session : list (OAuth2SessionType * OAuth2Session);
  oauth2_consent_session : list OAuth2ConsentSession;
}.

Definition empty : DB :=
  {| user_opaque_identifier := []; oauth2_blacklisted_jti := [];
     oauth2_session := []; oauth2_consent_session := [] |}.

(** Modelled from the spec: a missing row is reported by the SQL driver's
    [sql.ErrNoRows], and storage-layer errors are wrapped, not swallowed. *)
Definition no_rows (what : string) : error :=
  fmt_Errorf_w ("error selecting " ++ what) sql_ErrNoRows.

(** Modelled from the spec: a unique-constraint violation surfaces as a
    distinguishable conflict. *)
Definition ErrConflict : error := errors_New "UNIQUE constraint failed".

Definition same_triple (service sectorID username : string) (row : UserOpaqueIdentifier) : bool :=
  String.eqb (Service row) service && String.eqb (SectorID row) sectorID
  && String.eqb (Username row) username.

(** Modelled from the spec: lookup of an opaque identifier by its triple; a
    miss is [(nil, nil)]. *)
Definition load_opaque (db : DB) (service sectorID username : string)
    : option UserOpaqueIdentifier * option error :=
  (find (same_triple service sectorID username) (user_opaque_identifier db), None).

(** Modelled from the spec: the uniqueness constraint on the triple is the
    arbiter of a first resolution. *)
Definition save_opaque (db : DB) (row : UserOpaqueIdentifier) : DB * option error :=
  match find (same_triple (Service row) (SectorID row) (Username row))
             (user_opaque_identifier db) with
  | Some _ => (db, Some (fmt_Errorf_w "error inserting user opaque id" ErrConflict))
  | None =>
      ({| user_opaque_identifier := user_opaque_identifier db ++ [row];
          oauth2_blacklisted_jti := oauth2_blacklisted_jti db;
          oauth2_session := oauth2_session db;
          oauth2_consent_session := oauth2_consent_session db |}, None)
  end.

(** Modelled from the spec: point read of a blacklisted JTI by its digest. *)
Definition load_jti (db : DB) (signature : string) : result OAuth2BlacklistedJTI :=
  match find (λ row, String.eqb (jti_Signature row) signature) (oauth2_blacklisted_jti db) with
  | Some row => Ok row
  | None => Err (no_rows "oauth2 blacklisted JTI")
  end.

(** Modelled from the spec: marking a JTI used records its digest with the
    expiry, replacing an earlier entry of the same digest. *)
Definition save_jti (db : DB) (row : OAuth2BlacklistedJTI) : DB * option error :=
  ({| user_opaque_identifier := user_opaque_identifier db;
      oauth2_blacklisted_jti :=
        filter (λ old, jti_Signature old ≠ jti_Signature row) (oauth2_blacklisted_jti db)
        ++ [row];
      oauth2_session := oauth2_session db;
      oauth2_consent_session := oauth2_consent_session db |}, None).

Definition is_row (kind : OAuth2SessionType) (signature : string)
    (row : OAuth2SessionType * OAuth2Session) : bool :=
  bool_decide (row.1 = kind) && String.eqb (Signature row.2) signature.

Definition of_request (kind : OAuth2SessionType) (requestID : string)
    (row : OAuth2SessionType * OAuth2Session) : bool :=
  bool_decide (row.1 = kind) && String.eqb (RequestID row.2) requestID.

Definition with_sessions (db : DB) (rows : list (OAuth2SessionType * OAuth2Session)) : DB :=
  {| user_opaque_identifier := user_opaque_identifier db;
     oauth2_blacklisted_jti := oauth2_blacklisted_jti db;
     oauth2_session := rows;
     oauth2_consent_session := oauth2_consent_session db |}.

Definition set_Active (b : bool) (r : OAuth2Session) : OAuth2Session :=
  {| Signature := Signature r; RequestID := RequestID r;
     session_ClientID := session_ClientID r; Subject := Subject r;
     Active := b; Revoked := Revoked r; Session := Session r; Form := Form r |}.

Definition set_Revoked (b : bool) (r : OAuth2Session) : OAuth2Session :=
  {| Signature := Signature r; RequestID := RequestID r;
     session_ClientID := session_ClientID r; Subject := Subject r;
     Active := Active r; Revoked := b; Session := Session r; Form := Form r |}.

(** [update p f rows] applies [f] to the session of every row selected by [p]. *)
Definition update (p : OAuth2SessionType * OAuth2Session → bool) (f : OAuth2Session → OAuth2Session)
    (rows : list (OAuth2SessionType * OAuth2Session)) : list (OAuth2SessionType * OAuth2Session) :=
  map (λ row, if p row then (row.1, f row.2) else row) rows.

(** Modelled from the spec: a session is read by its (kind, signature) pair;
    a revoked row is no longer returned, an inactive one is. *)
Definition load_session (db : DB) (kind : OAuth2SessionType) (signature : string)
    : result OAuth2Session :=
  match find (λ row, is_row kind signature row && negb (Revoked row.2)) (oauth2_session db) with
  | Some row => Ok row.2
  | None => Err (no_rows "oauth2 session")
  end.

(** Modelled from the spec: save fails with a conflict if the (kind,
    signature) pair already exists. *)
Definition save_session (db : DB) (kind : OAuth2SessionType) (row : OAuth2Session)
    : DB * option error :=
  match find (is_row kind (Signature row)) (oauth2_session db) with
  | Some _ => (db, Some (fmt_Errorf_w "error inserting oauth2 session" ErrConflict))
  | None => (with_sessions db (oauth2_session db ++ [(kind, row)]), None)
  end.

(** Modelled from the spec: deactivation by signature marks the row inactive
    and is idempotent. *)
Definition deactivate_session (db : DB) (kind : OAuth2SessionType) (signature : string)
    : DB * option error :=
  (with_sessions db (update (is_row kind signature) (set_Active false) (oauth2_session db)), None).

(** Modelled from the spec: revocation by signature marks the row revoked. *)
Definition revoke_session (db : DB) (kind : OAuth2SessionType) (signature : string)
    : DB * option error :=
  (with_sessions db (update (is_row kind signature) (set_Revoked true) (oauth2_session db)), None).

(** Modelled from the spec: deactivation by request ID touches every row of
    the kind sharing the request ID, and fails only if zero rows matched. *)
Definition deactivate_by_request (db : DB) (kind : OAuth2SessionType) (requestID : string)
    : DB * option error :=
  if existsb (of_request kind requestID) (oauth2_session db)
  then (with_sessions db (update (of_request kind requestID) (set_Active false) (oauth2_session db)), None)
  else (db, Some (no_rows "oauth2 session by request id")).

(** Modelled from the spec: revocation by request ID, as above. *)
Definition revoke_by_request (db : DB) (kind : OAuth2SessionType) (requestID : string)
    : DB * option error :=
  if existsb (of_request kind requestID) (oauth2_session db)
  then (with_sessions db (update (of_request kind requestID) (set_Revoked true) (oauth2_session db)), None)
  else (db, Some (no_rows "oauth2 session by request id")).

(** Modelled from the spec: a consent session is read by its challenge ID. *)
Definition load_consent (db : DB) (challengeID : UUID) : result OAuth2ConsentSession :=
  match find (λ row, bool_decide (ChallengeID row = challengeID)) (oauth2_consent_session db) with
  | Some row => Ok row
  | None => Err (no_rows "oauth2 consent session")
  end.

(** Modelled from the spec: the consent-response save persists the decision
    with the granted scopes and audience; a resubmitted decision overwrites
    the prior outcome. *)
Definition save_consent_response (db : DB) (consent : OAuth2ConsentSession) (authorized : bool)
    : DB * option error :=
  ({| user_opaque_identifier := user_opaque_identifier db;
      oauth2_blacklisted_jti := oauth2_blacklisted_jti db;
      oauth2_session := oauth2_session db;
      oauth2_consent_session :=
        map (λ row,
               if bool_decide (ChallengeID row = ChallengeID consent)
               then {| ChallengeID := ChallengeID row;
                       ClientID := ClientID row;
                       consent_Subject := consent_Subject row;
                       Authorized := if authorized then Granted else Denied;
                       consent_Form := consent_Form row;
                       RequestedScopes := RequestedScopes row;
                       GrantedScopes := GrantedScopes consent;
                       RequestedAudience := RequestedAudience row;
                       GrantedAudience := GrantedAudience consent |}
               else row)
            (oauth2_consent_session db) |}, None).

(** Modelled from the spec: the storage substrate as a [Provider]. *)
#[global] Instance provider : Provider DB := {|
  LoadUserOpaqueIdentifierBySignature := load_opaque;
  SaveUserOpaqueIdentifier := save_opaque;
  LoadOAuth2BlacklistedJTI := load_jti;
  SaveOAuth2BlacklistedJTI := save_jti;
  LoadOAuth2Session := load_session;
  SaveOAuth2Session := save_session;
  DeactivateOAuth2Session := deactivate_session;
  RevokeOAuth2Session := revoke_session;
  DeactivateOAuth2SessionByRequestID := deactivate_by_request;
  RevokeOAuth2SessionByRequestID := revoke_by_request;
  LoadOAuth2ConsentSessionByChallengeID := load_consent;
  SaveOAuth2ConsentSessionResponse := save_consent_response;
|}.

(** Another request resolving the same triple first: its row is committed
    while this request is suspended. *)
Definition winner (row : UserOpaqueIdentifier) (db : DB) : DB := (save_opaque db row).1.

End memory.

Arguments loadSessionBySignature {St _ Requester fosite_Session} ToRequest s db sessionType signature session.
Arguments GetAuthorizeCodeSession {St _ Requester fosite_Session} ToRequest s db code session.
Arguments GetAccessTokenSession {St _ Requester fosite_Session} ToRequest s db signature session.
Arguments GetPKCERequestSession {St _ Requester fosite_Session} ToRequest s db signature session.
Arguments GetOpenIDConnectSession {St _ Requester fosite_Session} ToRequest s db authorizeCode session.
Arguments saveSession {St _ Requester} NewOAuth2SessionFromRequest s db sessionType signature r.
Arguments CreateAuthorizeCodeSession {St _ Requester} NewOAuth2SessionFromRequest s db code request.
Arguments CreateAccessTokenSession {St _ Requester} NewOAuth2SessionFromRequest s db signature request.
Arguments CreatePKCERequestSession {St _ Requester} NewOAuth2SessionFromRequest s db signature request.
Arguments CreateOpenIDConnectSession {St _ Requester} NewOAuth2SessionFromRequest s db authorizeCode request.
Arguments oidcConsentPOST {St _} json_Unmarshal {url_Values} GetForm Encode AuthorizationPath
  IsAuthenticationLevelSufficient s ctx db.
Arguments oidcConsentGetSessionsAndClient {St _} s ctx db.

(** ** Concrete collaborators for the examples *)
Module fixtures.

(** A stand-in for the hexadecimal digest: injective, like the real one is
    taken to be. *)
Definition digest (b : string) : string := "sha256:" ++ b.

(** Requests are kept as the rows that store them. *)
Definition to_request (row : OAuth2Session) (_ : unit) : result OAuth2Session := Ok row.

Definition from_request (signature : string) (r : OAuth2Session) : result OAuth2Session :=
  Ok {| Signature := signature; RequestID := RequestID r;
        session_ClientID := session_ClientID r; Subject := Subject r;
        Active := true; Revoked := false; Session := Session r; Form := Form r |}.

Definition request (requestID : string) : OAuth2Session :=
  {| Signature := ""; RequestID := requestID; session_ClientID := "app1";
     Subject := "john"; Active := true; Revoked := false;
     Session := "{}"; Form := "scope=openid" |}.

Definition new_client (c : OpenIDConnectClientConfiguration) : Client :=
  {| ID := cfg_ID c;
     Policy := if String.eqb (cfg_Policy c) "one_factor" then authorization.OneFactor
               else authorization.TwoFactor |}.

Definition config : OpenIDConnectConfiguration :=
  {| Clients := [ {| cfg_ID := "app1"; cfg_Policy := "one_factor" |};
                  {| cfg_ID := "app2"; cfg_Policy := "two_factor" |} ] |}.

Definition store : OpenIDConnectStore := NewOpenIDConnectStore new_client config.

(** The body is read as the client ID, a space, and the verb. *)
Definition decode (raw : string) : option ConsentPostRequestBody :=
  match String.index 0 " " raw with
  | Some i => Some {| body_ClientID := String.substring 0 i raw;
                      AcceptOrReject := String.substring (S i) (String.length raw - S i) raw |}
  | None => None
  end.

Definition get_form (consent : OAuth2ConsentSession) : option string :=
  Some (consent_Form consent).

Definition encode (form : string) : string := form.

Definition path : string := "/api/oidc/authorization".

Definition sufficient (client : Client) (level : authentication.Level) : bool :=
  match level, Policy client with
  | authentication.NotAuthenticated, _ => false
  | authentication.OneFactor, authorization.TwoFactor => false
  | _, _ => true
  end.

Definition consent (state : Decision) : OAuth2ConsentSession :=
  {| ChallengeID := 1%N; ClientID := "app1"; consent_Subject := "john";
     Authorized := state; consent_Form := "client_id=app1&scope=openid+profile";
     RequestedScopes := ["openid"; "profile"]; GrantedScopes := [];
     RequestedAudience := ["api"]; GrantedAudience := [] |}.

Definition db_with (c : OAuth2ConsentSession) : memory.DB :=
  {| memory.user_opaque_identifier := []; memory.oauth2_blacklisted_jti := [];
     memory.oauth2_session := []; memory.oauth2_consent_session := [c] |}.

Definition ctx (raw : string) : AutheliaCtx :=
  {| RequestBody := raw;
     GetSession := {| us_Username := "john";
                      AuthenticationLevel := authentication.TwoFactor;
                      ConsentChallengeID := Some 1%N;
                      OIDCWorkflowSession :=
                        Some {| RequiredAuthorizationLevel := authorization.OneFactor |} |};
     ExternalRootURL := Ok "https://auth.example.com" |}.

Definition post (raw : string) (db : memory.DB) : Outcome :=
  oidcConsentPOST decode get_form encode path sufficient store (ctx raw) db.

Definition john_winner : UserOpaqueIdentifier :=
  {| Service := "openid"; SectorID := "example.com"; Username := "john"; Identifier := 7%N |}.

End fixtures.

(** ** The consent decision as the specification words it *)
Module decision.

(** On accept the granted scopes are the requested scopes, and the granted
    audience is the requested audience with the client's own ID added when it
    is not among it. *)
Definition accepted (consent : OAuth2ConsentSession) : OAuth2ConsentSession :=
  {| ChallengeID := ChallengeID consent;
     ClientID := ClientID consent;
     consent_Subject := consent_Subject consent;
     Authorized := Authorized consent;
     consent_Form := consent_Form consent;
     RequestedScopes := RequestedScopes consent;
     GrantedScopes := RequestedScopes consent;
     RequestedAudience := RequestedAudience consent;
     GrantedAudience :=
       if decide (ClientID consent ∈ RequestedAudience consent)
       then RequestedAudience consent
       else (RequestedAudience consent ++ [ClientID consent])%list |}.

(** The end of a decision: the consent-response save, then the answer with
    the redirect target, or the generic failure when the save fails. *)
Definition persisted {St : Type} `{!Provider St} (db : St)
    (consent : OAuth2ConsentSession) (authorized : bool) (redirect : string) : Outcome :=
  match SaveOAuth2ConsentSessionResponse db consent authorized with
  | (db', Some _) => Build_Outcome (SetJSONError messageOperationFailed) db' (Some consent)
  | (db', None) => Build_Outcome (SetJSONBody {| RedirectURI := redirect |}) db' (Some consent)
  end.

End decision.

(** ** The consent presentation (GET) *)
Module consent_get.

Section ConsentGET.

Context {St : Type} `{!Provider St}.

(** Collaborators declared outside the files at hand, taken as parameters:
    the rendering [client.GetConsentResponseBody(consent)] with its type, and
    [client.IsAuthenticationLevelSufficient]. *)
Variable ConsentGetResponseBody : Type.
Variable GetConsentResponseBody : Client → OAuth2ConsentSession → ConsentGetResponseBody.
Variable IsAuthenticationLevelSufficient : Client → authentication.Level → bool.

(** [inl] is a reply without body, [inr] the body given to
    [ctx.SetJSONBody].  The handler reads the storage and never writes it. *)
Definition oidcConsent (s : OpenIDConnectStore) (ctx : AutheliaCtx) (db : St)
    : Reply + ConsentGetResponseBody :=
  match oidcConsentGetSessionsAndClient s ctx db with
  | inl answered => inl answered
  | inr (userSession, consent, client) =>
      if negb (IsAuthenticationLevelSufficient client (AuthenticationLevel userSession))
      then inl ReplyForbidden
      else inr (GetConsentResponseBody client consent)
  end.

End ConsentGET.

End consent_get.

(** ** Go byte slices and string functions used by the CORS middleware *)
Module bytes.

(** A [[]byte] is [None] when nil; a nil slice reads as the empty one. *)
Definition to_string (b : option string) : string := default "" b.

Definition len (b : option string) : nat := String.length (to_string b).

(** [bytes.Equal]: a nil argument is equivalent to an empty slice. *)
Definition Equal (a b : option string) : bool := String.eqb (to_string a) (to_string b).

End bytes.

Module gostrings.

(** [strings.Join(elems, sep)]. *)
Definition Join (elems : list string) (sep : string) : string := String.concat sep elems.

(** [strings.Split(s, sep)] for a separator of one byte: the substrings
    between the separators, one more than there are separators. *)
Fixpoint Split (s : string) (sep : Ascii.ascii) : list string :=
  match s with
  | EmptyString => [""]
  | String a rest =>
      if Ascii.eqb a sep then "" :: Split rest sep
      else match Split rest sep with
           | first :: others => String a first :: others
           | [] => [String a ""]
           end
  end.

Fixpoint TrimLeft (s : string) (cut : Ascii.ascii) : string :=
  match s with
  | String a rest => if Ascii.eqb a cut then TrimLeft rest cut else s
  | EmptyString => ""
  end.

Fixpoint TrimRight (s : string) (cut : Ascii.ascii) : string :=
  match s with
  | String a rest =>
      let kept := TrimRight rest cut in
      if Ascii.eqb a cut && String.eqb kept "" then "" else String a kept
  | EmptyString => ""
  end.

(** [strings.Trim(s, cutset)] for a cutset of one byte. *)
Definition Trim (s : string) (cut : Ascii.ascii) : string := TrimRight (TrimLeft s cut) cut.

(** [strconv.FormatBool] and [strconv.Itoa]. *)
Definition FormatBool (b : bool) : string := if b then "true" else "false".

Definition Itoa (i : Z) : string := DecimalString.NilZero.string_of_int (Z.to_int i).

End gostrings.

(** ** [fasthttp]: the request and response headers the middleware touches *)
Module fasthttp.

Definition StatusNoContent : Z := 204.
Definition HeaderCookie : string := "Cookie".
Definition HeaderAuthorization : string := "Authorization".
Definition HeaderProxyAuthorization : string := "Proxy-Authorization".

Record Request : Type := {
  request_header : gmap string string;
}.

Record Response : Type := {
  StatusCode : Z;
  Body : string;
  response_header : gmap string string;
}.

(** [ctx.Request.Header.PeekBytes(key)]: nil when the header is absent. *)
Definition PeekBytes (req : Request) (key : string) : option string :=
  request_header req !! key.

(** [ctx.Response.Header.SetBytesKV(key, value)] replaces the value under
    the key. *)
Definition SetBytesKV (resp : Response) (key : string) (value : option string) : Response :=
  {| StatusCode := StatusCode resp; Body := Body resp;
     response_header := <[key := bytes.to_string value]> (response_header resp) |}.

Definition ResetBody (resp : Response) : Response :=
  {| StatusCode := StatusCode resp; Body := ""; response_header := response_header resp |}.

Definition SetStatusCode (resp : Response) (code : Z) : Response :=
  {| StatusCode := code; Body := Body resp; response_header := response_header resp |}.

End fasthttp.

(** ** [middlewares]: the CORS policy *)
Module cors.

Import Stdlib.Strings.Ascii.
Import fasthttp.

Record CORSMiddleware : Type := {
  enabled : bool;
  varyOnly : bool;
  methods : option string;
  headers : list string;
  origins : option (list string);
  credentials : option string;
  vary : option string;
  maxAge : option string;
}.

(** [url.URL], the field the middleware reads. *)
Record URL : Type := {
  Scheme : string;
}.

Section Policy.

(** Declared outside the files at hand and taken as parameters: the header
    names and header values of the middlewares package (non-nil byte
    slices), [url.Parse] ([None] when it fails), [strings.EqualFold] and
    [utils.IsStringInSliceFold]. *)
Variables headerAllow headerVary headerOrigin : string.
Variables headerAccessControlAllowOrigin headerAccessControlAllowCredentials : string.
Variables headerAccessControlMaxAge headerAccessControlRequestMethod : string.
Variables headerAccessControlAllowMethods headerAccessControlRequestHeaders : string.
Variable headerAccessControlAllowHeaders : string.
Variables headerValueVary headerValueMaxAge headerValueFalse headerValueTrue : string.
Variable originValueWildcard : string.
Variable url_Parse : string → option URL.
Variable EqualFold : string → string → bool.
Variable IsStringInSliceFold : string → list string → bool.

Definition NewCORSMiddleware : CORSMiddleware :=
  {| enabled := true; varyOnly := false; methods := None; headers := [];
     origins := None; credentials := Some headerValueFalse;
     vary := Some headerValueVary; maxAge := Some headerValueMaxAge |}.

Definition WithEnabled (p : CORSMiddleware) (enabled' : bool) : CORSMiddleware :=
  {| enabled := enabled'; varyOnly := varyOnly p; methods := methods p;
     headers := headers p; origins := origins p; credentials := credentials p;
     vary := vary p; maxAge := maxAge p |}.

Definition WithAllowedMethods (p : CORSMiddleware) (methods' : list string) : CORSMiddleware :=
  {| enabled := enabled p; varyOnly := varyOnly p;
     methods := match methods' with
                | [] => None
                | _ => Some (gostrings.Join methods' ", ")
                end;
     headers := headers p; origins := origins p; credentials := credentials p;
     vary := vary p; maxAge := maxAge p |}.

(** The loop of [WithAllowedOrigins]: [originsValue] holds the origins
    copied so far; the first ["*"] ends the loop with the wildcard alone. *)
Fixpoint copy_origins (origins' originsValue : list string) : list string :=
  match origins' with
  | [] => originsValue
  | origin :: rest =>
      if String.eqb origin "*" then [origin]
      else copy_origins rest (originsValue ++ [origin])%list
  end.

Definition WithAllowedOrigins (p : CORSMiddleware) (origins' : list string) : CORSMiddleware :=
  {| enabled := enabled p; varyOnly := varyOnly p; methods := methods p;
     headers := headers p;
     origins := match origins' with
                | [] => None
                | _ => Some (copy_origins origins' [])
                end;
     credentials := credentials p; vary := vary p; maxAge := maxAge p |}.

Definition WithAllowedHeaders (p : CORSMiddleware) (headers' : list string) : CORSMiddleware :=
  {| enabled := enabled p; varyOnly := varyOnly p; methods := methods p;
     headers := headers'; origins := origins p; credentials := credentials p;
     vary := vary p; maxAge := maxAge p |}.

Definition WithAllowCredentials (p : CORSMiddleware) (allow : bool) : CORSMiddleware :=
  {| enabled := enabled p; varyOnly := varyOnly p; methods := methods p;
     headers := headers p; origins := origins p;
     credentials := Some (gostrings.FormatBool allow);
     vary := vary p; maxAge := maxAge p |}.

Definition WithVary (p : CORSMiddleware) (headers' : list string) : CORSMiddleware :=
  {| enabled := enabled p; varyOnly := varyOnly p; methods := methods p;
     headers := headers p; origins := origins p; credentials := credentials p;
     vary := match headers' with
             | [] => None
             | _ => Some (gostrings.Join headers' ", ")
             end;
     maxAge := maxAge p |}.

Definition WithVaryOnly (p : CORSMiddleware) (varyOnly' : bool) : CORSMiddleware :=
  {| enabled := enabled p; varyOnly := varyOnly'; methods := methods p;
     headers := headers p; origins := origins p; credentials := credentials p;
     vary := vary p; maxAge := maxAge p |}.

Definition WithMaxAge (p : CORSMiddleware) (age : Z) : CORSMiddleware :=
  {| enabled := enabled p; varyOnly := varyOnly p; methods := methods p;
     headers := headers p; origins := origins p; credentials := credentials p;
     vary := vary p;
     maxAge := if (age =? 0)%Z then None else Some (gostrings.Itoa age) |}.

Definition handleOPTIONS (p : CORSMiddleware) (resp : Response) : Response :=
  let resp := ResetBody resp in
  let resp := SetStatusCode resp StatusNoContent in
  if negb (bytes.len (methods p) =? 0)%nat then SetBytesKV resp headerAllow (methods p)
  else resp.

Definition handleVary (p : CORSMiddleware) (resp : Response) : Response :=
  if negb (bytes.len (vary p) =? 0)%nat then SetBytesKV resp headerVary (vary p)
  else resp.

Definition handleAllowedMethods (p : CORSMiddleware) (req : Request) (resp : Response)
    : Response :=
  if (bytes.len (methods p) =? 0)%nat then
    match PeekBytes req headerAccessControlRequestMethod with
    | Some requestMethods => SetBytesKV resp headerAccessControlAllowMethods (Some requestMethods)
    | None => resp
    end
  else SetBytesKV resp headerAccessControlAllowMethods (methods p).

(** The loop over the requested headers: the wildcard is skipped, and the
    credential-bearing headers are kept only when credentials are allowed. *)
Definition allowHeaders (p : CORSMiddleware) (requestedHeaders : list string) : list string :=
  foldl (λ allowHeaders requested,
           let headerTrimmed := gostrings.Trim requested " "%char in
           if String.eqb headerTrimmed "*" then allowHeaders
           else if bytes.Equal (credentials p) (Some headerValueTrue)
                   || (negb (EqualFold HeaderCookie headerTrimmed)
                       && negb (EqualFold HeaderAuthorization headerTrimmed)
                       && negb (EqualFold HeaderProxyAuthorization headerTrimmed))
                then (allowHeaders ++ [headerTrimmed])%list
                else allowHeaders)
        [] requestedHeaders.

(** The test of that loop on a trimmed header, as one predicate. *)
Definition kept_header (p : CORSMiddleware) (h : string) : bool :=
  negb (String.eqb h "*")
  && (bytes.Equal (credentials p) (Some headerValueTrue)
      || (negb (EqualFold HeaderCookie h)
          && negb (EqualFold HeaderAuthorization h)
          && negb (EqualFold HeaderProxyAuthorization h))).

Definition handleAllowedHeaders (p : CORSMiddleware) (req : Request) (resp : Response)
    : Response :=
  match headers p with
  | [] =>
      match PeekBytes req headerAccessControlRequestHeaders with
      | Some headers' =>
          let requestedHeaders := gostrings.Split headers' ","%char in
          let allowHeaders := allowHeaders p requestedHeaders in
          if negb (length allowHeaders =? 0)%nat
          then SetBytesKV resp headerAccessControlAllowHeaders
                 (Some (gostrings.Join allowHeaders ", "))
          else resp
      | None => resp
      end
  | _ =>
      let headers0 := headers p in
      let headers3 :=
        if bytes.Equal (credentials p) (Some headerValueTrue) then
          let headers1 :=
            if negb (IsStringInSliceFold HeaderCookie headers0)
            then (headers0 ++ [HeaderCookie])%list else headers0 in
          let headers2 :=
            if negb (IsStringInSliceFold HeaderAuthorization headers1)
            then (headers1 ++ [HeaderAuthorization])%list else headers1 in
          if negb (IsStringInSliceFold HeaderProxyAuthorization headers2)
          then (headers2 ++ [HeaderProxyAuthorization])%list else headers2
        else headers0 in
      SetBytesKV resp headerAccessControlAllowHeaders (Some (gostrings.Join headers3 ", "))
  end.

(** The loop over the configured origins: the last configured origin that is
    the wildcard or the request origin decides. *)
Definition match_origins (configured : list string) (origin : option string) : option string :=
  foldl (λ allowedOrigin o,
           if bytes.Equal (Some o) (Some originValueWildcard) then Some originValueWildcard
           else if bytes.Equal (Some o) origin then origin
           else allowedOrigin)
        None configured.

Definition handleCORS (p : CORSMiddleware) (req : Request) (resp : Response) : Response :=
  let origin := PeekBytes req headerOrigin in
  match url_Parse (bytes.to_string origin) with
  | None => resp
  | Some originURL =>
      if negb (String.eqb (Scheme originURL) "https") && bool_decide (origins p = None)
      then resp
      else
        (* [None] is the return taken when no origin is allowed. *)
        let allowed : option (option string) :=
          match default [] (origins p) with
          | [] => Some origin
          | configured =>
              let allowedOrigin := match_origins configured origin in
              if (bytes.len allowedOrigin =? 0)%nat then None else Some allowedOrigin
          end in
        match allowed with
        | None => resp
        | Some allowedOrigin =>
            let resp := SetBytesKV resp headerAccessControlAllowOrigin allowedOrigin in
            let resp := SetBytesKV resp headerAccessControlAllowCredentials (credentials p) in
            let resp := match maxAge p with
                        | Some _ => SetBytesKV resp headerAccessControlMaxAge (maxAge p)
                        | None => resp
                        end in
            let resp := handleAllowedHeaders p req resp in
            handleAllowedMethods p req resp
        end
  end.

Definition handle (p : CORSMiddleware) (req : Request) (resp : Response) : Response :=
  if negb (enabled p) then resp
  else
    let resp := handleVary p resp in
    if negb (varyOnly p) then handleCORS p req resp else resp.

Definition HandleOPTIONS (p : CORSMiddleware) (req : Request) (resp : Response) : Response :=
  handle p req (handleOPTIONS p resp).

Definition HandleOnlyOPTIONS (p : CORSMiddleware) (resp : Response) : Response :=
  handleOPTIONS p resp.

(** [next] is the wrapped request handler. *)
Definition Middleware (p : CORSMiddleware) (next : Request → Response → Response)
    (req : Request) (resp : Response) : Response :=
  next req (handle p req resp).

End Policy.

End cors.

(** ** Header writes: what a handler does to a response when all it does is
    set headers *)
Module header_writes.

Import fasthttp.

(** The header sets of [l], first to last. *)
Definition put_all (l : list (string * string)) (resp : Response) : Response :=
  foldl (λ r kv, SetBytesKV r kv.1 (Some kv.2)) resp l.

(** The value [l] leaves under the key [k], if it sets it. *)
Definition last_write (l : list (string * string)) (k : string) : option string :=
  foldl (λ found kv, if decide (kv.1 = k) then Some kv.2 else found) None l.

(** [f] only sets headers, all among the keys [K], whatever the response. *)
Definition writes_in (K : list string) (f : Response → Response) : Prop :=
  ∃ l, Forall (λ kv, kv.1 ∈ K) l ∧ ∀ resp, f resp = put_all l resp.

End header_writes.

(** ** Concrete collaborators for the CORS examples *)
Module cors_fixtures.

Import Stdlib.Strings.Ascii.
Import fasthttp cors.

Definition lower (c : ascii) : ascii :=
  let n := nat_of_ascii c in
  if (65 <=? n)%nat && (n <=? 90)%nat then ascii_of_nat (n + 32) else c.

Fixpoint lowercase (s : string) : string :=
  match s with
  | String c rest => String (lower c) (lowercase rest)
  | EmptyString => ""
  end.

(** Case folding on the ASCII letters only. *)
Definition fold_equal (a b : string) : bool := String.eqb (lowercase a) (lowercase b).

Definition in_slice_fold (needle : string) (haystack : list string) : bool :=
  existsb (fold_equal needle) haystack.

(** The scheme is what precedes ["://"]; every string parses. *)
Definition parse (raw : string) : option URL :=
  match String.index 0 "://" raw with
  | Some i => Some {| Scheme := String.substring 0 i raw |}
  | None => Some {| Scheme := "" |}
  end.

Definition new_policy : CORSMiddleware := NewCORSMiddleware "Accept-Encoding, Origin" "100" "false".

Definition run (p : CORSMiddleware) (req : Request) (resp : Response) : Response :=
  handle "Vary" "Origin" "Access-Control-Allow-Origin" "Access-Control-Allow-Credentials"
    "Access-Control-Max-Age" "Access-Control-Request-Method" "Access-Control-Allow-Methods"
    "Access-Control-Request-Headers" "Access-Control-Allow-Headers" "true" "*"
    parse fold_equal in_slice_fold p req resp.

Definition options (p : CORSMiddleware) (req : Request) (resp : Response) : Response :=
  HandleOPTIONS "Allow" "Vary" "Origin" "Access-Control-Allow-Origin"
    "Access-Control-Allow-Credentials" "Access-Control-Max-Age"
    "Access-Control-Request-Method" "Access-Control-Allow-Methods"
    "Access-Control-Request-Headers" "Access-Control-Allow-Headers" "true" "*"
    parse fold_equal in_slice_fold p req resp.

Definition request (origin : string) : Request :=
  {| request_header :=
       {[ "Origin" := origin;
          "Access-Control-Request-Method" := "POST";
          "Access-Control-Request-Headers" := "X-Token, Cookie , *,authorization" ]} |}.

Definition blank : Response :=
  {| StatusCode := 200; Body := "body"; response_header := ∅ |}.

Definition step (p : CORSMiddleware) (req : Request) (resp : Response) : Response :=
  handleCORS "Origin" "Access-Control-Allow-Origin" "Access-Control-Allow-Credentials"
    "Access-Control-Max-Age" "Access-Control-Request-Method" "Access-Control-Allow-Methods"
    "Access-Control-Request-Headers" "Access-Control-Allow-Headers" "true" "*"
    parse fold_equal in_slice_fold p req resp.

Definition echoed (p : CORSMiddleware) (requested : list string) : list string :=
  allowHeaders "true" fold_equal p requested.

End cors_fixtures.

(** ** [validator]: the tables of configuration keys *)
Module validator.

Definition errFileHashing : string :=
  "config key incorrect: authentication_backend.file.hashing should be authentication_backend.file.password".
Definition errFilePHashing : string :=
  "config key incorrect: authentication_backend.file.password_hashing should be authentication_backend.file.password".
Definition errFilePOptions : string :=
  "config key incorrect: authentication_backend.file.password_options should be authentication_backend.file.password".

(** [ValidKeys], the valid keys that are not secret names. *)
Definition ValidKeys : list string :=
  [ "certificates_directory";
    "theme";
    "default_redirection_url";
    "jwt_secret";
    "log.level";
    "log.format";
    "log.file_path";
    "log.keep_stdout";
    "server.host";
    "server.port";
    "server.read_buffer_size";
    "server.write_buffer_size";
    "server.path";
    "server.asset_path";
    "server.enable_pprof";
    "server.enable_expvars";
    "server.disable_healthcheck";
    "server.tls.key";
    "server.tls.certificate";
    "server.headers.csp_template";
    "totp.disable";
    "totp.issuer";
    "totp.algorithm";
    "totp.digits";
    "totp.period";
    "totp.skew";
    "webauthn.disable";
    "webauthn.display_name";
    "webauthn.attestation_conveyance_preference";
    "webauthn.user_verification";
    "webauthn.timeout";
    "duo_api.hostname";
    "duo_api.enable_self_enrollment";
    "duo_api.secret_key";
    "duo_api.integration_key";
    "access_control.default_policy";
    "access_control.networks";
    "access_control.networks[].name";
    "access_control.networks[].networks";
    "access_control.rules";
    "access_control.rules[].domain";
    "access_control.rules[].methods";
    "access_control.rules[].networks";
    "access_control.rules[].subject";
    "access_control.rules[].policy";
    "access_control.rules[].resources";
    "session.name";
    "session.domain";
    "session.secret";
    "session.same_site";
    "session.expiration";
    "session.inactivity";
    "session.remember_me_duration";
    "session.redis.host";
    "session.redis.port";
    "session.redis.username";
    "session.redis.password";
    "session.redis.database_index";
    "session.redis.maximum_active_connections";
    "session.redis.minimum_idle_connections";
    "session.redis.tls.minimum_version";
    "session.redis.tls.skip_verify";
    "session.redis.tls.server_name";
    "session.redis.high_availability.sentinel_name";
    "session.redis.high_availability.sentinel_username";
    "session.redis.high_availability.sentinel_password";
    "session.redis.high_availability.nodes";
    "session.redis.high_availability.nodes[].host";
    "session.redis.high_availability.nodes[].port";
    "session.redis.high_availability.route_by_latency";
    "session.redis.high_availability.route_randomly";
    "storage.encryption_key";
    "storage.local.path";
    "storage.mysql.host";
    "storage.mysql.port";
    "storage.mysql.database";
    "storage.mysql.username";
    "storage.mysql.password";
    "storage.mysql.timeout";
    "storage.postgres.host";
    "storage.postgres.port";
    "storage.postgres.database";
    "storage.postgres.username";
    "storage.postgres.password";
    "storage.postgres.timeout";
    "storage.postgres.schema";
    "storage.postgres.ssl.mode";
    "storage.postgres.ssl.root_certificate";
    "storage.postgres.ssl.certificate";
    "storage.postgres.ssl.key";
    "storage.postgres.sslmode";
    "notifier.filesystem.filename";
    "notifier.disable_startup_check";
    "notifier.smtp.host";
    "notifier.smtp.port";
    "notifier.smtp.timeout";
    "notifier.smtp.username";
    "notifier.smtp.password";
    "notifier.smtp.identifier";
    "notifier.smtp.sender";
    "notifier.smtp.subject";
    "notifier.smtp.startup_check_address";
    "notifier.smtp.disable_require_tls";
    "notifier.smtp.disable_html_emails";
    "notifier.smtp.tls.minimum_version";
    "notifier.smtp.tls.skip_verify";
    "notifier.smtp.tls.server_name";
    "regulation.max_retries";
    "regulation.find_time";
    "regulation.ban_time";
    "authentication_backend.disable_reset_password";
    "authentication_backend.refresh_interval";
    "authentication_backend.ldap.implementation";
    "authentication_backend.ldap.url";
    "authentication_backend.ldap.timeout";
    "authentication_backend.ldap.base_dn";
    "authentication_backend.ldap.username_attribute";
    "authentication_backend.ldap.additional_users_dn";
    "authentication_backend.ldap.users_filter";
    "authentication_backend.ldap.additional_groups_dn";
    "authentication_backend.ldap.groups_filter";
    "authentication_backend.ldap.group_name_attribute";
    "authentication_backend.ldap.mail_attribute";
    "authentication_backend.ldap.display_name_attribute";
    "authentication_backend.ldap.user";
    "authentication_backend.ldap.password";
    "authentication_backend.ldap.start_tls";
    "authentication_backend.ldap.tls.minimum_version";
    "authentication_backend.ldap.tls.skip_verify";
    "authentication_backend.ldap.tls.server_name";
    "authentication_backend.file.path";
    "authentication_backend.file.password.algorithm";
    "authentication_backend.file.password.iterations";
    "authentication_backend.file.password.key_length";
    "authentication_backend.file.password.salt_length";
    "authentication_backend.file.password.memory";
    "authentication_backend.file.password.parallelism";
    "identity_providers.oidc.hmac_secret";
    "identity_providers.oidc.issuer_private_key";
    "identity_providers.oidc.id_token_lifespan";
    "identity_providers.oidc.access_token_lifespan";
    "identity_providers.oidc.refresh_token_lifespan";
    "identity_providers.oidc.authorize_code_lifespan";
    "identity_providers.oidc.enforce_pkce";
    "identity_providers.oidc.enable_pkce_plain_challenge";
    "identity_providers.oidc.enable_client_debug_messages";
    "identity_providers.oidc.minimum_parameter_entropy";
    "identity_providers.oidc.clients";
    "identity_providers.oidc.clients[].id";
    "identity_providers.oidc.clients[].description";
    "identity_providers.oidc.clients[].public";
    "identity_providers.oidc.clients[].secret";
    "identity_providers.oidc.clients[].redirect_uris";
    "identity_providers.oidc.clients[].authorization_policy";
    "identity_providers.oidc.clients[].scopes";
    "identity_providers.oidc.clients[].audience";
    "identity_providers.oidc.clients[].grant_types";
    "identity_providers.oidc.clients[].response_types";
    "identity_providers.oidc.clients[].response_modes";
    "identity_providers.oidc.clients[].userinfo_signing_algorithm";
    "ntp.address";
    "ntp.version";
    "ntp.max_desync";
    "ntp.disable_startup_check";
    "ntp.disable_failure" ].

(** [replacedKeys], a map literal, as the list of its entries (a Go map
    literal has no duplicate key). *)
Definition replacedKeys : list (string * string) :=
  [ ("authentication_backend.ldap.skip_verify", "authentication_backend.ldap.tls.skip_verify");
    ("authentication_backend.ldap.minimum_tls_version", "authentication_backend.ldap.tls.minimum_version");
    ("notifier.smtp.disable_verify_cert", "notifier.smtp.tls.skip_verify");
    ("logs_level", "log.level");
    ("logs_file_path", "log.file_path");
    ("log_level", "log.level");
    ("log_file_path", "log.file_path");
    ("log_format", "log.format");
    ("host", "server.host");
    ("port", "server.port");
    ("tls_key", "server.tls.key");
    ("tls_cert", "server.tls.certificate") ].

(** [specificErrorKeys], a map literal, as the list of its entries. *)
Definition specificErrorKeys : list (string * string) :=
  [ ("google_analytics",
     "config key removed: google_analytics - this functionality has been deprecated");
    ("notifier.smtp.trusted_cert",
     "invalid configuration key 'notifier.smtp.trusted_cert' it has been removed, option has been replaced by the global option 'certificates_directory'");
    ("authentication_backend.file.password_options.algorithm",
     errFilePOptions);
    ("authentication_backend.file.password_options.iterations",
     errFilePOptions);
    ("authentication_backend.file.password_options.key_length",
     errFilePOptions);
    ("authentication_backend.file.password_options.salt_length",
     errFilePOptions);
    ("authentication_backend.file.password_options.memory",
     errFilePOptions);
    ("authentication_backend.file.password_options.parallelism",
     errFilePOptions);
    ("authentication_backend.file.password_hashing.algorithm",
     errFilePHashing);
    ("authentication_backend.file.password_hashing.iterations",
     errFilePHashing);
    ("authentication_backend.file.password_hashing.key_length",
     errFilePHashing);
    ("authentication_backend.file.password_hashing.salt_length",
     errFilePHashing);
    ("authentication_backend.file.password_hashing.memory",
     errFilePHashing);
    ("authentication_backend.file.password_hashing.parallelism",
     errFilePHashing);
    ("authentication_backend.file.hashing.algorithm",
     errFileHashing);
    ("authentication_backend.file.hashing.iterations",
     errFileHashing);
    ("authentication_backend.file.hashing.key_length",
     errFileHashing);
    ("authentication_backend.file.hashing.salt_length",
     errFileHashing);
    ("authentication_backend.file.hashing.memory",
     errFileHashing);
    ("authentication_backend.file.hashing.parallelism",
     errFileHashing) ].

End validator.

(** * Properties *)

(** ** [errors.Is] *)

Lemma is_chain_refl (e : error) : is_chain e e = true.
Proof. destruct e; cbn [is_chain]; by rewrite decide_True. Qed.

Lemma is_chain_wrapped (msg : string) (e t : error) :
  is_chain e t = true → is_chain (fmt_Errorf_w msg e) t = true.
Proof. intros He. cbn [is_chain]. by case_decide. Qed.

(** With the sentinel on the left there is nothing to unwrap: only the
    sentinel itself matches. *)
Lemma is_chain_no_rows_left (e : error) :
  is_chain sql_ErrNoRows e = true ↔ e = sql_ErrNoRows.
Proof.
  cbn [is_chain]. case_decide as Heq; split; intros H; done.
Qed.

Lemma Is_no_rows_left (r : option error) :
  errors.Is (Some sql_ErrNoRows) r = true ↔ r = Some sql_ErrNoRows.
Proof.
  destruct r as [e|]; unfold errors.Is.
  - rewrite is_chain_no_rows_left. split; congruence.
  - split; discriminate.
Qed.

(** ** The client registry *)

Lemma GetFullClient_lookup (s : OpenIDConnectStore) (id : string) :
  GetFullClient s id = match clients s !! id with
                       | Some client => Ok client
                       | None => Err fosite_ErrNotFound
                       end.
Proof. unfold GetFullClient. by destruct (clients s !! id). Qed.

Lemma registry_foldl (NewClient : OpenIDConnectClientConfiguration → Client)
    (l : list OpenIDConnectClientConfiguration) (m : gmap string Client) (id : string) :
  foldl (λ m client, <[cfg_ID client := NewClient client]> m) m l !! id =
  match last (filter (λ c, cfg_ID c = id) l) with
  | Some c => Some (NewClient c)
  | None => m !! id
  end.
Proof.
  induction l as [|c l IH] using rev_ind; [done|].
  rewrite foldl_app, filter_app. simpl.
  destruct (decide (cfg_ID c = id)) as [Heq|Hne].
  - rewrite filter_cons_True by done. rewrite filter_nil, last_snoc.
    subst. by rewrite lookup_insert_eq.
  - rewrite filter_cons_False by done. rewrite filter_nil, app_nil_r.
    by rewrite lookup_insert_ne.
Qed.

(** The registry built at start-up holds, under each configured ID, the client
    made from the last configuration entry carrying that ID, and nothing under
    any other ID. *)
Lemma NewOpenIDConnectStore_lookup (NewClient : OpenIDConnectClientConfiguration → Client)
    (config : OpenIDConnectConfiguration) (id : string) :
  clients (NewOpenIDConnectStore NewClient config) !! id =
  NewClient <$> last (filter (λ c, cfg_ID c = id) (Clients config)).
Proof.
  unfold NewOpenIDConnectStore. simpl. rewrite registry_foldl.
  destruct (last _); [done|]. by rewrite lookup_empty.
Qed.

(** Two-factor is the strictest policy level. *)
Lemma TwoFactor_strictest (l : authorization.Level) :
  (authorization.rank l ≤ authorization.rank authorization.TwoFactor)%nat.
Proof. destruct l; simpl; lia. Qed.

(** C9: for a client ID that the registry cannot resolve, [GetClientPolicy]
    answers the strictest level, two-factor; for a registered client it
    answers the policy level of that client. *)
Theorem GetClientPolicy_default_two_factor (s : OpenIDConnectStore) (id : string) :
  (clients s !! id = None →
     GetFullClient s id = Err fosite_ErrNotFound
     ∧ GetClientPolicy s id = authorization.TwoFactor
     ∧ ∀ l, (authorization.rank l ≤ authorization.rank (GetClientPolicy s id))%nat)
  ∧ (∀ client, clients s !! id = Some client →
       GetClientPolicy s id = Policy client).
Proof.
  unfold GetClientPolicy. rewrite GetFullClient_lookup. split.
  - intros ->. split_and!; [done..|]. apply TwoFactor_strictest.
  - by intros client ->.
Qed.

Lemma GetClientPolicy_default_two_factor_witness :
  (clients fixtures.store !! "unknown" = None
   ∧ GetClientPolicy fixtures.store "unknown" = authorization.TwoFactor)
  ∧ (clients fixtures.store !! "app1" = Some {| ID := "app1"; Policy := authorization.OneFactor |}
     ∧ GetClientPolicy fixtures.store "app1" = authorization.OneFactor).
Proof.
  assert (H1 : clients fixtures.store !! "unknown" = None) by (vm_compute; reflexivity).
  assert (H2 : clients fixtures.store !! "app1"
               = Some {| ID := "app1"; Policy := authorization.OneFactor |})
    by (vm_compute; reflexivity).
  split.
  - split; [exact H1|].
    exact (proj1 (proj2 (proj1 (GetClientPolicy_default_two_factor fixtures.store "unknown") H1))).
  - split; [exact H2|].
    exact (proj2 (GetClientPolicy_default_two_factor fixtures.store "app1") _ H2).
Defined.

(** ** Refresh-token revocation *)

(** C10: [RevokeRefreshTokenMaybeGracePeriod] behaves as [RevokeRefreshToken]
    on the request ID: the signature is ignored, no grace period is applied,
    and the refresh-token rows of the request are deactivated at once by the
    provider. *)
Theorem RevokeRefreshTokenMaybeGracePeriod_is_RevokeRefreshToken
    {St : Type} `{!Provider St} (s : OpenIDConnectStore) (db : St)
    (requestID signature : string) :
  RevokeRefreshTokenMaybeGracePeriod s db requestID signature
    = RevokeRefreshToken s db requestID
  ∧ (∀ signature', RevokeRefreshTokenMaybeGracePeriod s db requestID signature'
                   = RevokeRefreshTokenMaybeGracePeriod s db requestID signature)
  ∧ RevokeRefreshTokenMaybeGracePeriod s db requestID signature
    = DeactivateOAuth2SessionByRequestID db OAuth2SessionTypeRefreshToken requestID.
Proof. by split_and!. Qed.

(** ** Rows of the storage substrate *)

Lemma find_map_some {A : Type} (p : A → bool) (g : A → A) (l : list A) (x : A) :
  (∀ y, p (g y) = p y) → find p l = Some x → find p (map g l) = Some (g x).
Proof.
  intros Hp. induction l as [|y l IH]; simpl; [done|].
  rewrite Hp. destruct (p y); [|done]. by intros [= ->].
Qed.

Lemma find_map_stable {A : Type} (p : A → bool) (g : A → A) (l : list A) :
  (∀ y, p (g y) = p y) → (∀ y, p y = true → g y = y) →
  find p (map g l) = find p l.
Proof.
  intros Hp Hg. induction l as [|y l IH]; simpl; [done|].
  rewrite Hp. destruct (p y) eqn:Hy; [|done]. by rewrite Hg.
Qed.

(** On the storage substrate, a session that can be read is, once deactivated
    by its signature, still read, with the same content and marked inactive. *)
Lemma load_after_deactivate (db : memory.DB) (kind : OAuth2SessionType)
    (signature : string) (row : OAuth2Session) :
  memory.load_session db kind signature = Ok row →
  memory.load_session (memory.deactivate_session db kind signature).1 kind signature
  = Ok (memory.set_Active false row).
Proof.
  unfold memory.load_session, memory.deactivate_session, memory.update. simpl.
  destruct (find _ (memory.oauth2_session db)) as [found|] eqn:Hfind; [|done].
  intros [= <-].
  erewrite find_map_some; [| |exact Hfind].
  - apply find_some in Hfind as [_ Hp].
    apply andb_prop in Hp as [-> _]. done.
  - intros [k r]. destruct (memory.is_row kind signature (k, r)) eqn:Hrow;
      cbn [fst snd]; [|by rewrite Hrow].
    unfold memory.is_row in *. simpl in *. by rewrite Hrow.
Qed.

(** On the storage substrate, revoking the row of one kind leaves the rows
    of every other kind as they are. *)
Lemma load_after_revoke_other_kind (db : memory.DB) (kind other : OAuth2SessionType)
    (signature signature' : string) :
  kind ≠ other →
  memory.load_session (memory.revoke_session db other signature') .1 kind signature
  = memory.load_session db kind signature.
Proof.
  intros Hne.
  unfold memory.load_session, memory.revoke_session, memory.update. simpl.
  assert (Hkind : ∀ k r r', memory.is_row other signature' (k, r) = true →
                            memory.is_row kind signature (k, r') = false).
  { intros k r r' Hrow. unfold memory.is_row in *. cbn [fst snd] in *.
    apply andb_prop in Hrow as [Hk _]. apply bool_decide_eq_true in Hk as ->.
    by rewrite (bool_decide_eq_false_2 (other = kind)) by congruence. }
  rewrite find_map_stable; [done| |].
  - intros [k r]. destruct (memory.is_row other signature' (k, r)) eqn:Hrow; [|done].
    cbn [fst snd]. by rewrite !(Hkind _ _ _ Hrow).
  - intros [k r] Hp. destruct (memory.is_row other signature' (k, r)) eqn:Hrow; [|done].
    by rewrite (Hkind _ _ _ Hrow) in Hp.
Qed.

(** ** Loading a session by its signature *)

Lemma loadSessionBySignature_no_rows
    {St : Type} `{!Provider St} {Requester fosite_Session : Type}
    (ToRequest : OAuth2Session → fosite_Session → result Requester)
    (s : OpenIDConnectStore) (db : St) (kind : OAuth2SessionType) (signature : string)
    (session : fosite_Session) (err : error) :
  LoadOAuth2Session db kind signature = Err err →
  errors.Is (Some err) (Some sql_ErrNoRows) = true →
  loadSessionBySignature ToRequest s db kind signature session
  = (None, Some fosite_ErrNotFound).
Proof.
  intros Hload Hrows. unfold loadSessionBySignature. by rewrite Hload, Hrows.
Qed.

Lemma loadSessionBySignature_inactive_code
    {St : Type} `{!Provider St} {Requester fosite_Session : Type}
    (ToRequest : OAuth2Session → fosite_Session → result Requester)
    (s : OpenIDConnectStore) (db : St) (code : string) (session : fosite_Session)
    (row : OAuth2Session) (r : Requester) :
  LoadOAuth2Session db OAuth2SessionTypeAuthorizeCode code = Ok row →
  Active row = false →
  ToRequest row session = Ok r →
  loadSessionBySignature ToRequest s db OAuth2SessionTypeAuthorizeCode code session
  = (Some r, Some fosite_ErrInvalidatedAuthorizeCode).
Proof.
  intros Hload Hactive Hreq. unfold loadSessionBySignature.
  rewrite Hload, Hreq, Hactive. by rewrite bool_decide_eq_true_2.
Qed.

(** For the other kinds an inactive row is returned without any error. *)
Lemma loadSessionBySignature_inactive_other
    {St : Type} `{!Provider St} {Requester fosite_Session : Type}
    (ToRequest : OAuth2Session → fosite_Session → result Requester)
    (s : OpenIDConnectStore) (db : St) (kind : OAuth2SessionType) (signature : string)
    (session : fosite_Session) (row : OAuth2Session) (r : Requester) :
  kind ≠ OAuth2SessionTypeAuthorizeCode →
  LoadOAuth2Session db kind signature = Ok row →
  ToRequest row session = Ok r →
  loadSessionBySignature ToRequest s db kind signature session = (Some r, None).
Proof.
  intros Hkind Hload Hreq. unfold loadSessionBySignature.
  rewrite Hload, Hreq. rewrite bool_decide_eq_false_2 by done.
  by rewrite andb_false_r.
Qed.

(** C2: when the provider has no row for the (kind, signature) pair, the load
    fails with [fosite.ErrNotFound]; when the row of an authorize code is
    inactive, the load returns the request rebuilt from the stored row
    together with [fosite.ErrInvalidatedAuthorizeCode], not a missing row. *)
Theorem loadSessionBySignature_not_found_or_invalidated
    {St : Type} `{!Provider St} {Requester fosite_Session : Type}
    (ToRequest : OAuth2Session → fosite_Session → result Requester)
    (s : OpenIDConnectStore) (db : St) :
  (∀ kind signature session err,
     LoadOAuth2Session db kind signature = Err err →
     errors.Is (Some err) (Some sql_ErrNoRows) = true →
     loadSessionBySignature ToRequest s db kind signature session
     = (None, Some fosite_ErrNotFound))
  ∧ (∀ code session row r,
       LoadOAuth2Session db OAuth2SessionTypeAuthorizeCode code = Ok row →
       Active row = false →
       ToRequest row session = Ok r →
       GetAuthorizeCodeSession ToRequest s db code session
       = (Some r, Some fosite_ErrInvalidatedAuthorizeCode)).
Proof.
  split.
  - intros kind signature session err. apply loadSessionBySignature_no_rows.
  - intros code session row r. apply loadSessionBySignature_inactive_code.
Qed.

(** A code is saved, then invalidated: the load of the code gives the request
    back with the invalidation error, the load of another code finds nothing. *)
Lemma loadSessionBySignature_not_found_or_invalidated_witness :
  let db1 := (CreateAuthorizeCodeSession fixtures.from_request fixtures.store
                memory.empty "code" (fixtures.request "r1")).1 in
  let db2 := (InvalidateAuthorizeCodeSession fixtures.store db1 "code").1 in
  let row := memory.set_Active false
               {| Signature := "code"; RequestID := "r1"; session_ClientID := "app1";
                  Subject := "john"; Active := true; Revoked := false;
                  Session := "{}"; Form := "scope=openid" |} in
  GetAccessTokenSession fixtures.to_request fixtures.store db2 "code" ()
  = (None, Some fosite_ErrNotFound)
  ∧ GetAuthorizeCodeSession fixtures.to_request fixtures.store db2 "code" ()
    = (Some row, Some fosite_ErrInvalidatedAuthorizeCode).
Proof.
  intros db1 db2 row.
  destruct (loadSessionBySignature_not_found_or_invalidated
              fixtures.to_request fixtures.store db2) as [Habsent Hused].
  split.
  - apply (Habsent OAuth2SessionTypeAccessToken "code" ()
                   (memory.no_rows "oauth2 session")); vm_compute; reflexivity.
  - apply (Hused "code" () row row); vm_compute; reflexivity.
Defined.

(** On the storage substrate: whatever authorize code can be read, after
    [InvalidateAuthorizeCodeSession] the load by its signature returns the
    stored content with the invalidation error. *)
Lemma GetAuthorizeCodeSession_after_invalidate {Requester fosite_Session : Type}
    (ToRequest : OAuth2Session → fosite_Session → result Requester)
    (s : OpenIDConnectStore) (db : memory.DB) (code : string) (session : fosite_Session)
    (row : OAuth2Session) (r : Requester) :
  LoadOAuth2Session db OAuth2SessionTypeAuthorizeCode code = Ok row →
  ToRequest (memory.set_Active false row) session = Ok r →
  GetAuthorizeCodeSession ToRequest s (InvalidateAuthorizeCodeSession s db code).1 code session
  = (Some r, Some fosite_ErrInvalidatedAuthorizeCode).
Proof.
  intros Hload Hreq.
  apply (loadSessionBySignature_inactive_code ToRequest s _ code session
           (memory.set_Active false row) r); [|done..].
  by apply load_after_deactivate.
Qed.

(** ** Deleting PKCE and OpenID Connect sessions *)

(** Both deletions are the revocation of the access-token row of the given
    signature: they are the very call made by [DeleteAccessTokenSession]. *)
Lemma Delete_PKCE_OpenIDConnect_as_access_token
    {St : Type} `{!Provider St} (s : OpenIDConnectStore) (db : St) (signature : string) :
  DeletePKCERequestSession s db signature = DeleteAccessTokenSession s db signature
  ∧ DeleteOpenIDConnectSession s db signature = DeleteAccessTokenSession s db signature
  ∧ DeleteAccessTokenSession s db signature
    = RevokeOAuth2Session db OAuth2SessionTypeAccessToken signature.
Proof. by split_and!. Qed.

(** On the storage substrate the row of the PKCE or OpenID Connect kind is
    read after the deletion exactly as before it. *)
Lemma Delete_leaves_own_kind (s : OpenIDConnectStore) (db : memory.DB)
    (signature signature' : string) :
  (LoadOAuth2Session (DeletePKCERequestSession s db signature).1
     OAuth2SessionTypePKCEChallenge signature'
   = LoadOAuth2Session db OAuth2SessionTypePKCEChallenge signature')
  ∧ (LoadOAuth2Session (DeleteOpenIDConnectSession s db signature).1
       OAuth2SessionTypeOpenIDConnect signature'
     = LoadOAuth2Session db OAuth2SessionTypeOpenIDConnect signature').
Proof.
  split; apply load_after_revoke_other_kind; done.
Qed.

(** C4, at a storage holding a PKCE session, an OpenID Connect session and an
    access token under the signature [sig]: after [DeletePKCERequestSession]
    (and likewise [DeleteOpenIDConnectSession]) the session of that kind is
    still loaded, active and without error, while the access token of the same
    signature is the row that is gone. *)
Theorem DeletePKCERequestSession_wrong_kind :
  let create kind db :=
    (saveSession fixtures.from_request fixtures.store db kind "sig" (fixtures.request "r1")).1 in
  let db0 := create OAuth2SessionTypeAccessToken
               (create OAuth2SessionTypeOpenIDConnect
                  (create OAuth2SessionTypePKCEChallenge memory.empty)) in
  let saved := {| Signature := "sig"; RequestID := "r1"; session_ClientID := "app1";
                  Subject := "john"; Active := true; Revoked := false;
                  Session := "{}"; Form := "scope=openid" |} in
  let db1 := (DeletePKCERequestSession fixtures.store db0 "sig").1 in
  let db2 := (DeleteOpenIDConnectSession fixtures.store db0 "sig").1 in
  GetPKCERequestSession fixtures.to_request fixtures.store db1 "sig" () = (Some saved, None)
  ∧ GetAccessTokenSession fixtures.to_request fixtures.store db1 "sig" ()
    = (None, Some fosite_ErrNotFound)
  ∧ GetOpenIDConnectSession fixtures.to_request fixtures.store db2 "sig" () = (Some saved, None)
  ∧ GetAccessTokenSession fixtures.to_request fixtures.store db2 "sig" ()
    = (None, Some fosite_ErrNotFound).
Proof. vm_compute. by split_and!. Qed.

(** ** The replay check of client assertions *)

(** The read is made under the digest of the JTI: two storages that answer
    alike under the digest are told apart by no raw JTI. *)
Lemma ClientAssertionJWTValid_reads_digest
    {St : Type} `{!Provider St} (sha256_hex : string → string)
    (s : OpenIDConnectStore) (now : Time) (db db' : St) (jti : string) :
  LoadOAuth2BlacklistedJTI db (sha256_hex jti) = LoadOAuth2BlacklistedJTI db' (sha256_hex jti) →
  ClientAssertionJWTValid sha256_hex s now db jti = ClientAssertionJWTValid sha256_hex s now db' jti.
Proof. intros Heq. unfold ClientAssertionJWTValid. by rewrite Heq. Qed.

(** A stored entry is a replay exactly when its expiry is strictly after now. *)
Lemma ClientAssertionJWTValid_stored
    {St : Type} `{!Provider St} (sha256_hex : string → string)
    (s : OpenIDConnectStore) (now : Time) (db : St) (jti : string)
    (entry : OAuth2BlacklistedJTI) :
  LoadOAuth2BlacklistedJTI db (sha256_hex jti) = Ok entry →
  ClientAssertionJWTValid sha256_hex s now db jti
  = if bool_decide (now < ExpiresAt entry)%Z then Some fosite_ErrJTIKnown else None.
Proof.
  intros Hload. unfold ClientAssertionJWTValid. rewrite Hload. simpl.
  unfold After. destruct (Z.ltb_spec now (ExpiresAt entry)).
  - by rewrite bool_decide_eq_true_2.
  - rewrite bool_decide_eq_false_2; [done|lia].
Qed.

(** A missing entry reported by the bare [sql.ErrNoRows] is no replay. *)
Lemma ClientAssertionJWTValid_bare_no_rows
    {St : Type} `{!Provider St} (sha256_hex : string → string)
    (s : OpenIDConnectStore) (now : Time) (db : St) (jti : string) :
  LoadOAuth2BlacklistedJTI db (sha256_hex jti) = Err sql_ErrNoRows →
  ClientAssertionJWTValid sha256_hex s now db jti = None.
Proof. intros Hload. unfold ClientAssertionJWTValid. by rewrite Hload. Qed.

(** Any other error of the read is returned as it is: with the sentinel as
    first argument of [errors.Is], a wrapped [sql.ErrNoRows] is not matched. *)
Lemma ClientAssertionJWTValid_other_error
    {St : Type} `{!Provider St} (sha256_hex : string → string)
    (s : OpenIDConnectStore) (now : Time) (db : St) (jti : string) (err : error) :
  LoadOAuth2BlacklistedJTI db (sha256_hex jti) = Err err →
  err ≠ sql_ErrNoRows →
  ClientAssertionJWTValid sha256_hex s now db jti = Some err.
Proof.
  intros Hload Hne. unfold ClientAssertionJWTValid. rewrite Hload.
  destruct (errors.Is _ _) eqn:His; [|done].
  apply Is_no_rows_left in His. simpl in His. congruence.
Qed.

(** C7, at the empty storage, which reports the missing entry as a wrapped
    [sql.ErrNoRows]: the replay check of a JTI never marked returns that error
    instead of success, although the error is one that [errors.Is(err,
    sql.ErrNoRows)] recognises and that [loadSessionBySignature] turns into a
    missing row. *)
Theorem ClientAssertionJWTValid_absent_entry_error :
  let err := memory.no_rows "oauth2 blacklisted JTI" in
  LoadOAuth2BlacklistedJTI memory.empty (fixtures.digest "jti-1") = Err err
  ∧ errors.Is (Some err) (Some sql_ErrNoRows) = true
  ∧ errors.Is (Some sql_ErrNoRows) (Some err) = false
  ∧ ClientAssertionJWTValid fixtures.digest fixtures.store 100%Z memory.empty "jti-1"
    = Some err
  ∧ IsJWTUsed fixtures.digest fixtures.store 100%Z memory.empty "jti-1" = (true, Some err).
Proof. vm_compute. by split_and!. Qed.

(** ** The consent decision *)

Lemma IsStringInSlice_elem_of (needle : string) (haystack : list string) :
  utils.IsStringInSlice needle haystack = true ↔ needle ∈ haystack.
Proof.
  unfold utils.IsStringInSlice. rewrite existsb_exists. split.
  - intros (x & Hin & Heq). apply String.eqb_eq in Heq as ->.
    by apply list_elem_of_In.
  - intros Hin. exists needle. split; [by apply list_elem_of_In|].
    apply String.eqb_refl.
Qed.

Section Decide.

Context {St : Type} `{!Provider St}.
Variable json_Unmarshal : string → option ConsentPostRequestBody.
Variable url_Values : Type.
Variable GetForm : OAuth2ConsentSession → option url_Values.
Variable Encode : url_Values → string.
Variable AuthorizationPath : string.
Variable IsAuthenticationLevelSufficient : Client → authentication.Level → bool.

Variables (s : OpenIDConnectStore) (ctx : AutheliaCtx) (db : St).

Local Abbreviation POST :=
  (oidcConsentPOST json_Unmarshal GetForm Encode AuthorizationPath
     IsAuthenticationLevelSufficient s ctx db).

(** The call carries a decodable body and the user session refers to a
    consent session that the storage holds. *)
Variables (body : ConsentPostRequestBody) (challengeID : UUID)
  (consent : OAuth2ConsentSession).
Hypothesis Hbody : json_Unmarshal (RequestBody ctx) = Some body.
Hypothesis Hchallenge : ConsentChallengeID (GetSession ctx) = Some challengeID.
Hypothesis Hconsent : LoadOAuth2ConsentSessionByChallengeID db challengeID = Ok consent.





(** The session, the client and the policy resolve, the body names the client
    of the session, and the stored form parses. *)
Variables (client : Client) (form : url_Values).
Hypothesis Hclient : clients s !! ClientID consent = Some client.
Hypothesis Hlevel :
  IsAuthenticationLevelSufficient client (AuthenticationLevel (GetSession ctx)) = true.
Hypothesis Hsame : ClientID consent = body_ClientID body.
Hypothesis Hform : GetForm consent = Some form.

Lemma oidcConsentPOST_accept (externalRootURL : string) :
  AcceptOrReject body = accept →
  ExternalRootURL ctx = Ok externalRootURL →
  POST = decision.persisted db (decision.accepted consent) true
           (externalRootURL ++ AuthorizationPath ++ "?" ++ Encode form).
Proof.
  intros Hverb Hroot. unfold oidcConsentPOST, oidcConsentGetSessionsAndClient.
  rewrite Hbody, Hchallenge, Hconsent, GetFullClient_lookup, Hclient.
  rewrite Hlevel. apply String.eqb_eq in Hsame as ->.
  rewrite Hform, Hverb, Hroot. simpl.
  unfold decision.persisted, decision.accepted.
  destruct (utils.IsStringInSlice _ _) eqn:Hin; simpl.
  - apply IsStringInSlice_elem_of in Hin. by rewrite decide_True.
  - rewrite decide_False; [done|].
    intros Hin'. apply IsStringInSlice_elem_of in Hin'. congruence.
Qed.

Lemma oidcConsentPOST_reject :
  AcceptOrReject body = reject →
  POST = decision.persisted db consent false ("" ++ AuthorizationPath ++ "?" ++ Encode form).
Proof.
  intros Hverb. unfold oidcConsentPOST, oidcConsentGetSessionsAndClient.
  rewrite Hbody, Hchallenge, Hconsent, GetFullClient_lookup, Hclient.
  rewrite Hlevel. apply String.eqb_eq in Hsame as ->.
  rewrite Hform, Hverb. done.
Qed.

Lemma oidcConsentPOST_other_verb :
  AcceptOrReject body ≠ accept → AcceptOrReject body ≠ reject →
  POST = Build_Outcome ReplyBadRequest db (Some consent).
Proof.
  intros Ha Hr. unfold oidcConsentPOST, oidcConsentGetSessionsAndClient.
  rewrite Hbody, Hchallenge, Hconsent, GetFullClient_lookup, Hclient.
  rewrite Hlevel. apply String.eqb_eq in Hsame as ->.
  rewrite Hform. apply String.eqb_neq in Ha, Hr. by rewrite Ha, Hr.
Qed.

(** C1: the accept verb hands to the consent-response save, and leaves in the
    session object, a consent session whose granted scopes are the requested
    scopes and whose granted audience is the requested audience, with the
    client ID of the session appended when it was not among it. *)
Theorem oidcConsentPOST_accept_grants (externalRootURL : string) :
  AcceptOrReject body = accept →
  ExternalRootURL ctx = Ok externalRootURL →
  ∃ granted,
    consent_after POST = Some granted
    ∧ db_after POST = (SaveOAuth2ConsentSessionResponse db granted true).1
    ∧ GrantedScopes granted = RequestedScopes consent
    ∧ (ClientID consent ∈ RequestedAudience consent →
         GrantedAudience granted = RequestedAudience consent)
    ∧ (ClientID consent ∉ RequestedAudience consent →
         GrantedAudience granted = (RequestedAudience consent ++ [ClientID consent])%list)
    ∧ ClientID consent ∈ GrantedAudience granted
    ∧ ChallengeID granted = ChallengeID consent
    ∧ ClientID granted = ClientID consent
    ∧ RequestedScopes granted = RequestedScopes consent
    ∧ RequestedAudience granted = RequestedAudience consent.
Proof.
  intros Hverb Hroot. exists (decision.accepted consent).
  rewrite (oidcConsentPOST_accept externalRootURL Hverb Hroot).
  unfold decision.persisted.
  destruct (SaveOAuth2ConsentSessionResponse db _ true) as [db' [err|]]; simpl;
    (split_and!; [done..| | | |done|done|done|done]).
  all: try (intros Hin; by rewrite ?decide_True, ?decide_False by done).
  all: case_decide; [done|]; apply elem_of_app; right; by apply list_elem_of_singleton.
Qed.

(** C3, as the code has it: a consent session that is already granted or
    denied is decided again like a pending one.  The verb is handed to the
    consent-response save with the session, and the call succeeds whenever
    that save does. *)
Theorem oidcConsentPOST_terminal_decided_again :
  Authorized consent ≠ Pending →
  (AcceptOrReject body = reject →
     db_after POST = (SaveOAuth2ConsentSessionResponse db consent false).1
     ∧ ((SaveOAuth2ConsentSessionResponse db consent false).2 = None →
          succeeded (reply POST) = true))
  ∧ (∀ externalRootURL,
       AcceptOrReject body = accept →
       ExternalRootURL ctx = Ok externalRootURL →
       db_after POST
       = (SaveOAuth2ConsentSessionResponse db (decision.accepted consent) true).1
       ∧ ((SaveOAuth2ConsentSessionResponse db (decision.accepted consent) true).2 = None →
            succeeded (reply POST) = true)).
Proof.
  intros _. split.
  - intros Hverb. rewrite (oidcConsentPOST_reject Hverb). unfold decision.persisted.
    by destruct (SaveOAuth2ConsentSessionResponse db consent false) as [db' [err|]].
  - intros externalRootURL Hverb Hroot.
    rewrite (oidcConsentPOST_accept externalRootURL Hverb Hroot).
    unfold decision.persisted.
    by destruct (SaveOAuth2ConsentSessionResponse db _ true) as [db' [err|]].
Qed.

End Decide.



(** The accept flow of the spec: scopes openid and profile, audience api,
    client app1. *)
Lemma oidcConsentPOST_accept_grants_witness :
  ∃ granted,
    consent_after (fixtures.post "app1 accept" (fixtures.db_with (fixtures.consent Pending)))
    = Some granted
    ∧ GrantedScopes granted = ["openid"; "profile"]
    ∧ GrantedAudience granted = ["api"; "app1"].
Proof.
  destruct (oidcConsentPOST_accept_grants fixtures.decode string fixtures.get_form
       fixtures.encode fixtures.path fixtures.sufficient fixtures.store
       (fixtures.ctx "app1 accept") (fixtures.db_with (fixtures.consent Pending))
       {| body_ClientID := "app1"; AcceptOrReject := "accept" |} 1%N
       (fixtures.consent Pending) ltac:(vm_compute; reflexivity) ltac:(vm_compute; reflexivity) ltac:(vm_compute; reflexivity)
       {| ID := "app1"; Policy := authorization.OneFactor |}
       "client_id=app1&scope=openid+profile" ltac:(vm_compute; reflexivity) ltac:(vm_compute; reflexivity) ltac:(vm_compute; reflexivity) ltac:(vm_compute; reflexivity)
       "https://auth.example.com" ltac:(vm_compute; reflexivity) ltac:(vm_compute; reflexivity))
    as (granted & Hafter & _ & Hscopes & _ & Haud & _).
  exists granted. split; [exact Hafter|]. split; [exact Hscopes|].
  apply Haud. vm_compute. intros Hin. inversion Hin as [|? ? ? Hin']. inversion Hin'.
Defined.

(** A granted session is decided again with the reject verb. *)
Lemma oidcConsentPOST_terminal_decided_again_witness :
  Authorized (fixtures.consent Granted) ≠ Pending
  ∧ succeeded (reply (fixtures.post "app1 reject" (fixtures.db_with (fixtures.consent Granted))))
    = true.
Proof.
  assert (Hterminal : Authorized (fixtures.consent Granted) ≠ Pending)
    by (vm_compute; discriminate).
  split; [exact Hterminal|].
  refine (proj2 (proj1
    (oidcConsentPOST_terminal_decided_again fixtures.decode string fixtures.get_form
       fixtures.encode fixtures.path fixtures.sufficient fixtures.store
       (fixtures.ctx "app1 reject") (fixtures.db_with (fixtures.consent Granted))
       {| body_ClientID := "app1"; AcceptOrReject := "reject" |} 1%N
       (fixtures.consent Granted) ltac:(vm_compute; reflexivity) ltac:(vm_compute; reflexivity) ltac:(vm_compute; reflexivity)
       {| ID := "app1"; Policy := authorization.OneFactor |}
       "client_id=app1&scope=openid+profile" ltac:(vm_compute; reflexivity) ltac:(vm_compute; reflexivity) ltac:(vm_compute; reflexivity) ltac:(vm_compute; reflexivity)
       Hterminal) ltac:(vm_compute; reflexivity)) ltac:(vm_compute; reflexivity)).
Defined.

(** C3 fails on the code: a session already granted is decided with the
    reject verb; the call does not fail, it answers with the redirect, and the
    decision held by the storage is no longer the granted one. *)
Lemma oidcConsentPOST_terminal_not_refused :
  let db := fixtures.db_with (fixtures.consent Granted) in
  let o := fixtures.post "app1 reject" db in
  LoadOAuth2ConsentSessionByChallengeID db 1%N = Ok (fixtures.consent Granted)
  ∧ ¬ (succeeded (reply o) = false ∧ db_after o = db)
  ∧ succeeded (reply o) = true
  ∧ Authorized <$> memory.oauth2_consent_session (db_after o) = [Denied].
Proof.
  vm_compute. split_and!; [done| |done|done].
  intros [Hfail _]. discriminate Hfail.
Qed.

(** ** The redirect target *)

(** C6, at a pending session decided with the reject verb while the external
    root URL is [https://auth.example.com]: the redirect target of the answer
    starts at the authorization path, without the root URL, where the accept
    verb on the same session gives the root URL followed by that path. *)
Theorem oidcConsentPOST_reject_redirect_lacks_root :
  let db := fixtures.db_with (fixtures.consent Pending) in
  let target := "/api/oidc/authorization?client_id=app1&scope=openid+profile" in
  ExternalRootURL (fixtures.ctx "app1 reject") = Ok "https://auth.example.com"
  ∧ reply (fixtures.post "app1 reject" db) = SetJSONBody {| RedirectURI := target |}
  ∧ reply (fixtures.post "app1 reject" db)
    ≠ SetJSONBody {| RedirectURI := "https://auth.example.com" ++ target |}
  ∧ reply (fixtures.post "app1 accept" db)
    = SetJSONBody {| RedirectURI := "https://auth.example.com" ++ target |}.
Proof. vm_compute. split_and!; done. Qed.

(** ** Subject resolution *)

(** On the storage substrate a save refused by the uniqueness constraint
    leaves the storage as it was. *)
Lemma save_opaque_refused (db db' : memory.DB) (row : UserOpaqueIdentifier) (err : error) :
  memory.save_opaque db row = (db', Some err) → db' = db.
Proof.
  unfold memory.save_opaque. destruct (find _ _); [|done]. by intros [= <- _].
Qed.

Lemma GenerateOpaqueUserID_not_nil_nil
    {St : Type} `{!Provider St} (s : OpenIDConnectStore) (concurrent : St → St)
    (entropy : result UUID) (db : St) (sectorID username : string) :
  (GenerateOpaqueUserID s concurrent entropy db sectorID username).1 ≠ (None, None).
Proof.
  unfold GenerateOpaqueUserID.
  destruct (LoadUserOpaqueIdentifierBySignature db "openid" sectorID username)
    as [[found|] [err|]]; simpl; try done.
  destruct entropy as [u|err]; simpl; [|done].
  by destruct (SaveUserOpaqueIdentifier _ _) as [db' [err|]].
Qed.

(** A stored identifier is returned as it is, without any write. *)
Lemma GenerateOpaqueUserID_stored
    {St : Type} `{!Provider St} (s : OpenIDConnectStore) (concurrent : St → St)
    (entropy : result UUID) (db : St) (sectorID username : string)
    (opaqueID : UserOpaqueIdentifier) :
  LoadUserOpaqueIdentifierBySignature db "openid" sectorID username = (Some opaqueID, None) →
  GetSubject s concurrent entropy db sectorID username = ((Identifier opaqueID, None), db).
Proof.
  intros Hload. unfold GetSubject, GenerateOpaqueUserID. by rewrite Hload.
Qed.

(** C8, as the code has it: when the lookup finds no identifier and the save
    of the fresh one fails, [GenerateOpaqueUserID] returns the error of the
    save with the fresh identifier that was not persisted, and [GetSubject]
    returns that error with the zero UUID; the storage is read once, before
    the save. *)
Theorem GenerateOpaqueUserID_save_error
    {St : Type} `{!Provider St} (s : OpenIDConnectStore) (concurrent : St → St)
    (entropy : result UUID) (db db' : St) (sectorID username : string)
    (u : UUID) (err : error) :
  let fresh := {| Service := "openid"; SectorID := sectorID;
                  Username := username; Identifier := u |} in
  LoadUserOpaqueIdentifierBySignature db "openid" sectorID username = (None, None) →
  entropy = Ok u →
  SaveUserOpaqueIdentifier (concurrent db) fresh = (db', Some err) →
  GenerateOpaqueUserID s concurrent entropy db sectorID username
  = ((Some fresh, Some err), db')
  ∧ GetSubject s concurrent entropy db sectorID username = ((uuid_Nil, Some err), db').
Proof.
  intros fresh Hload -> Hsave. unfold GetSubject, GenerateOpaqueUserID.
  rewrite Hload. simpl. fold fresh. by rewrite Hsave.
Qed.

(** The race of two first resolutions of one triple: the other request
    commits the identifier 7 between the read and the write of this one. *)
Lemma GenerateOpaqueUserID_save_error_witness :
  GetSubject fixtures.store (memory.winner fixtures.john_winner) (Ok 9%N)
    memory.empty "example.com" "john"
  = ((uuid_Nil, Some (fmt_Errorf_w "error inserting user opaque id" memory.ErrConflict)),
     memory.winner fixtures.john_winner memory.empty).
Proof.
  refine (proj2 (GenerateOpaqueUserID_save_error fixtures.store
            (memory.winner fixtures.john_winner) (Ok 9%N) memory.empty
            (memory.winner fixtures.john_winner memory.empty) "example.com" "john" 9%N
            (fmt_Errorf_w "error inserting user opaque id" memory.ErrConflict) _ _ _));
    vm_compute; reflexivity.
Defined.

(** C8 fails on the code: in that race the lookup finds nothing and the save
    is refused by the uniqueness constraint; the identifier 7 is the one
    persisted for the triple, yet the resolution does not return it: it
    returns the zero UUID with the error of the save. *)
Lemma GetSubject_race_returns_error :
  let race := memory.winner fixtures.john_winner in
  let fresh := {| Service := "openid"; SectorID := "example.com";
                  Username := "john"; Identifier := 9%N |} in
  let r := GetSubject fixtures.store race (Ok 9%N) memory.empty "example.com" "john" in
  LoadUserOpaqueIdentifierBySignature memory.empty "openid" "example.com" "john" = (None, None)
  ∧ errors.Is (SaveUserOpaqueIdentifier (race memory.empty) fresh).2 (Some memory.ErrConflict) = true
  ∧ LoadUserOpaqueIdentifierBySignature r.2 "openid" "example.com" "john"
    = (Some fixtures.john_winner, None)
  ∧ r.1 ≠ (Identifier fixtures.john_winner, None)
  ∧ r.1 = (uuid_Nil, Some (fmt_Errorf_w "error inserting user opaque id" memory.ErrConflict)).
Proof. vm_compute. split_and!; done. Qed.

(** ** Immediate revocation on the storage substrate *)

(** After [RevokeRefreshTokenMaybeGracePeriod], whatever the signature, no
    refresh-token row of the request is left active. *)
Lemma RevokeRefreshTokenMaybeGracePeriod_immediate (s : OpenIDConnectStore)
    (db : memory.DB) (requestID signature : string) (row : OAuth2Session) :
  (OAuth2SessionTypeRefreshToken, row)
    ∈ memory.oauth2_session (RevokeRefreshTokenMaybeGracePeriod s db requestID signature).1 →
  RequestID row = requestID →
  Active row = false.
Proof.
  unfold RevokeRefreshTokenMaybeGracePeriod, RevokeRefreshToken. simpl.
  unfold memory.deactivate_by_request.
  destruct (existsb _ _) eqn:Hany; simpl.
  - unfold memory.update. intros Hin Hreq.
    apply list_elem_of_fmap in Hin as ([k r] & Heq & _).
    destruct (memory.of_request _ _ (k, r)) eqn:Hrow.
    + by injection Heq as _ ->.
    + injection Heq as <- <-. unfold memory.of_request in Hrow.
      cbn [fst snd] in Hrow. rewrite bool_decide_eq_true_2 in Hrow by done.
      apply String.eqb_neq in Hrow. done.
  - intros Hin Hreq. exfalso.
    assert (existsb (memory.of_request OAuth2SessionTypeRefreshToken requestID)
              (memory.oauth2_session db) = true) as Hex; [|congruence].
    apply existsb_exists. exists (OAuth2SessionTypeRefreshToken, row).
    split; [by apply list_elem_of_In|].
    unfold memory.of_request. cbn [fst snd]. rewrite bool_decide_eq_true_2 by done.
    subst. apply String.eqb_refl.
Qed.

(** * Further properties of the store *)

Lemma last_filter_is_Some {A : Type} (P : A → Prop) `{!∀ x, base.Decision (P x)} (l : list A) :
  is_Some (last (filter P l)) ↔ ∃ x, x ∈ l ∧ P x.
Proof.
  rewrite last_is_Some. split.
  - intros Hne. destruct (filter P l) as [|x l'] eqn:Hf; [done|].
    exists x. apply and_comm, (list_elem_of_filter P l x). rewrite Hf. by left.
  - intros (x & Hin & HP) Hnil.
    assert (x ∈ filter P l) as Hx by (by apply list_elem_of_filter).
    rewrite Hnil in Hx. by apply not_elem_of_nil in Hx.
Qed.

(** X1: the registry built from the configuration recognises exactly the
    configured client IDs: [IsValidClientID] is true for an ID if and only if
    some configured client carries it. *)
Theorem IsValidClientID_iff_configured
    (NewClient : OpenIDConnectClientConfiguration → Client)
    (config : OpenIDConnectConfiguration) (id : string) :
  IsValidClientID (NewOpenIDConnectStore NewClient config) id = true
  ↔ id ∈ cfg_ID <$> Clients config.
Proof.
  unfold IsValidClientID. rewrite GetFullClient_lookup, NewOpenIDConnectStore_lookup.
  rewrite list_elem_of_fmap.
  destruct (last (filter (λ c, cfg_ID c = id) (Clients config))) as [c|] eqn:Hlast; simpl.
  - split; [intros _|done].
    assert (is_Some (last (filter (λ c, cfg_ID c = id) (Clients config)))) as Hs by eauto.
    apply last_filter_is_Some in Hs as (x & Hin & Hx). eauto.
  - split; [done|]. intros (x & Hx & Hin).
    assert (is_Some (last (filter (λ c, cfg_ID c = id) (Clients config)))) as [? Hs].
    { apply last_filter_is_Some. eauto. }
    congruence.
Qed.

(** X2: when several configured clients share an ID the registry keeps the
    last one: the policy answered for the ID is that of the client made from
    the last configuration entry with this ID, and two-factor when no entry
    has it. *)
Theorem GetClientPolicy_last_configured
    (NewClient : OpenIDConnectClientConfiguration → Client)
    (config : OpenIDConnectConfiguration) (id : string) :
  GetClientPolicy (NewOpenIDConnectStore NewClient config) id
  = match last (filter (λ c, cfg_ID c = id) (Clients config)) with
    | Some c => Policy (NewClient c)
    | None => authorization.TwoFactor
    end.
Proof.
  unfold GetClientPolicy. rewrite GetFullClient_lookup, NewOpenIDConnectStore_lookup.
  by destruct (last _).
Qed.

Lemma Is_not_found_no_rows :
  errors.Is (Some fosite_ErrNotFound) (Some sql_ErrNoRows) = false.
Proof. reflexivity. Qed.

(** X3: [RevokeAccessToken] never hands a missing-row error of the storage to
    its caller: an error of the provider that matches [sql.ErrNoRows], bare or
    wrapped, is replaced by [fosite.ErrNotFound], any other outcome is passed
    on, and the storage is left as the provider left it.  [RevokeRefreshToken]
    passes every outcome of the provider on unchanged. *)
Theorem RevokeAccessToken_hides_no_rows
    {St : Type} `{!Provider St} (s : OpenIDConnectStore) (db : St) (requestID : string) :
  let provided := RevokeOAuth2SessionByRequestID db OAuth2SessionTypeAccessToken requestID in
  (RevokeAccessToken s db requestID).1 = provided.1
  ∧ (RevokeAccessToken s db requestID).2
    = (if errors.Is provided.2 (Some sql_ErrNoRows) then Some fosite_ErrNotFound
       else provided.2)
  ∧ errors.Is (RevokeAccessToken s db requestID).2 (Some sql_ErrNoRows) = false
  ∧ RevokeRefreshToken s db requestID
    = DeactivateOAuth2SessionByRequestID db OAuth2SessionTypeRefreshToken requestID.
Proof.
  unfold RevokeAccessToken, revokeSessionByRequestID, RevokeRefreshToken. simpl.
  destruct (RevokeOAuth2SessionByRequestID db OAuth2SessionTypeAccessToken requestID)
    as [db' [err|]]; simpl; [|done].
  destruct (is_chain err sql_ErrNoRows) eqn:His; simpl; [done|].
  by rewrite His.
Qed.

(** X4: [loadSessionBySignature] never returns a nil request with a nil
    error; it returns a request exactly when the provider has the row and the
    row converts to a request; and it returns no error exactly when, besides,
    the row is active or the kind is not the authorize code. *)
Theorem loadSessionBySignature_outcomes
    {St : Type} `{!Provider St} {Requester fosite_Session : Type}
    (ToRequest : OAuth2Session → fosite_Session → result Requester)
    (s : OpenIDConnectStore) (db : St) (kind : OAuth2SessionType) (signature : string)
    (session : fosite_Session) :
  let loaded := loadSessionBySignature ToRequest s db kind signature session in
  loaded ≠ (None, None)
  ∧ (is_Some loaded.1
     ↔ ∃ row r, LoadOAuth2Session db kind signature = Ok row ∧ ToRequest row session = Ok r)
  ∧ (loaded.2 = None
     ↔ ∃ row r, LoadOAuth2Session db kind signature = Ok row
                ∧ ToRequest row session = Ok r
                ∧ loaded.1 = Some r
                ∧ (Active row = true ∨ kind ≠ OAuth2SessionTypeAuthorizeCode)).
Proof.
  unfold loadSessionBySignature. simpl.
  destruct (LoadOAuth2Session db kind signature) as [row|err].
  - destruct (ToRequest row session) as [r|err] eqn:Hreq.
    + destruct (Active row) eqn:Hactive; simpl.
      * split_and!; [done|split; eauto|split; [intros _|done]].
        exists row, r. rewrite Hreq. eauto.
      * destruct (decide (kind = OAuth2SessionTypeAuthorizeCode)) as [->|Hkind].
        -- rewrite bool_decide_eq_true_2 by done. simpl.
           split_and!; [done|split; eauto|split; [done|]].
           intros (row' & r' & [= <-] & _ & _ & [Ha|Hk]); congruence.
        -- rewrite bool_decide_eq_false_2 by done. simpl.
           split_and!; [done|split; eauto|split; [intros _|done]].
           exists row, r. rewrite Hreq. eauto.
    + simpl. split_and!; [done| |].
      * split; [by intros [? [=]]|]. intros (row' & r' & [= <-] & Hr). congruence.
      * split; [done|]. intros (row' & r' & [= <-] & Hr & _). congruence.
  - assert (∀ e : error,
              (None : option Requester, Some e) ≠ (None, None)
              ∧ (is_Some (None : option Requester)
                 ↔ ∃ row r, Err err = Ok row ∧ ToRequest row session = Ok r)
              ∧ (Some e = None
                 ↔ ∃ row r, Err err = Ok row ∧ ToRequest row session = Ok r
                            ∧ None = Some r
                            ∧ (Active row = true ∨ kind ≠ OAuth2SessionTypeAuthorizeCode)))
      as Hnone.
    { intros e. split_and!; [done| |].
      - split; [by intros [? [=]]|]. by intros (? & ? & [=] & _).
      - split; [done|]. by intros (? & ? & [=] & _). }
    unfold errors.Is. destruct (is_chain err sql_ErrNoRows); apply Hnone.
Qed.

(** X5: the load of a refresh token does not look at the active flag: a row
    that the provider returns as inactive, as after a deactivation by
    [RevokeRefreshToken], is loaded like an active one, without any error. *)
Theorem GetRefreshTokenSession_inactive_row
    {St : Type} `{!Provider St} {Requester fosite_Session : Type}
    (ToRequest : OAuth2Session → fosite_Session → result Requester)
    (s : OpenIDConnectStore) (db : St) (signature : string) (session : fosite_Session)
    (row : OAuth2Session) (r : Requester) :
  LoadOAuth2Session db OAuth2SessionTypeRefreshToken signature = Ok row →
  Active row = false →
  ToRequest row session = Ok r →
  GetRefreshTokenSession _ _ ToRequest s db signature session = (Some r, None).
Proof.
  intros Hload _ Hreq. unfold GetRefreshTokenSession.
  by apply (loadSessionBySignature_inactive_other ToRequest s db _ signature session row r).
Qed.

(** A refresh token is saved, its request is revoked, and it is loaded. *)
Lemma GetRefreshTokenSession_inactive_row_witness :
  let db1 := (CreateRefreshTokenSession _ fixtures.from_request fixtures.store
                memory.empty "sig" (fixtures.request "r1")).1 in
  let db2 := (RevokeRefreshToken fixtures.store db1 "r1").1 in
  ∃ row, Active row = false
         ∧ GetRefreshTokenSession _ _ fixtures.to_request fixtures.store db2 "sig" ()
           = (Some row, None).
Proof.
  intros db1 db2.
  set (row := memory.set_Active false
                {| Signature := "sig"; RequestID := "r1"; session_ClientID := "app1";
                   Subject := "john"; Active := true; Revoked := false;
                   Session := "{}"; Form := "scope=openid" |}).
  exists row. split; [reflexivity|].
  apply (GetRefreshTokenSession_inactive_row fixtures.to_request fixtures.store db2
           "sig" () row row); vm_compute; reflexivity.
Defined.

(** X6: for a JTI whose digest has a stored entry, the replay check answers
    [fosite.ErrJTIKnown] exactly when the expiry of the entry is strictly
    after now, and succeeds exactly when the expiry is now or earlier;
    [IsJWTUsed] reports used, with that error, in the first case only. *)
Theorem ClientAssertionJWTValid_known_iff_unexpired
    {St : Type} `{!Provider St} (sha256_hex : string → string)
    (s : OpenIDConnectStore) (now : Time) (db : St) (jti : string)
    (entry : OAuth2BlacklistedJTI) :
  LoadOAuth2BlacklistedJTI db (sha256_hex jti) = Ok entry →
  (ClientAssertionJWTValid sha256_hex s now db jti = Some fosite_ErrJTIKnown
   ↔ (now < ExpiresAt entry)%Z)
  ∧ (ClientAssertionJWTValid sha256_hex s now db jti = None ↔ (ExpiresAt entry ≤ now)%Z)
  ∧ IsJWTUsed sha256_hex s now db jti
    = (if bool_decide (now < ExpiresAt entry)%Z then (true, Some fosite_ErrJTIKnown)
       else (false, None)).
Proof.
  intros Hload. unfold IsJWTUsed.
  rewrite (ClientAssertionJWTValid_stored sha256_hex s now db jti entry Hload).
  case_bool_decide; (split_and!; [split; (done || lia)|split; (done || lia)|done]).
Qed.

(** A JTI marked until 200 is checked at 200: the entry has expired. *)
Lemma ClientAssertionJWTValid_known_iff_unexpired_witness :
  let db := (MarkJWTUsedForTime fixtures.digest fixtures.store memory.empty "jti-1" 200%Z).1 in
  IsJWTUsed fixtures.digest fixtures.store 200%Z db "jti-1" = (false, None)
  ∧ IsJWTUsed fixtures.digest fixtures.store 199%Z db "jti-1" = (true, Some fosite_ErrJTIKnown).
Proof.
  intros db. split.
  - refine (proj2 (proj2 (ClientAssertionJWTValid_known_iff_unexpired fixtures.digest
              fixtures.store 200%Z db "jti-1"
              {| jti_Signature := fixtures.digest "jti-1"; ExpiresAt := 200%Z |} _)));
      vm_compute; reflexivity.
  - refine (proj2 (proj2 (ClientAssertionJWTValid_known_iff_unexpired fixtures.digest
              fixtures.store 199%Z db "jti-1"
              {| jti_Signature := fixtures.digest "jti-1"; ExpiresAt := 200%Z |} _)));
      vm_compute; reflexivity.
Defined.

(** [GetSubject] never returns a subject together with an error: whenever
    its error is not nil the subject is the zero UUID, also when
    [GenerateOpaqueUserID] hands back an identifier with the error. *)
Theorem GetSubject_error_zero_subject
    {St : Type} `{!Provider St} (s : OpenIDConnectStore) (concurrent : St → St)
    (entropy : result UUID) (db : St) (sectorID username : string) :
  let resolved := (GetSubject s concurrent entropy db sectorID username).1 in
  resolved.2 = None ∨ resolved.1 = uuid_Nil.
Proof.
  simpl. unfold GetSubject.
  destruct (GenerateOpaqueUserID s concurrent entropy db sectorID username)
    as [[[opaqueID|] [err|]] db']; simpl; auto.
Qed.

(** X7: subject resolution writes to the storage only on a clean miss: the
    storage after [GenerateOpaqueUserID] is the one before, unless the lookup
    returned neither an identifier nor an error and the random source gave a
    UUID, in which case it is what the save of the fresh identifier (service
    openid, the given sector and username, that UUID) left. *)
Theorem GenerateOpaqueUserID_writes_on_miss_only
    {St : Type} `{!Provider St} (s : OpenIDConnectStore) (concurrent : St → St)
    (entropy : result UUID) (db : St) (sectorID username : string) :
  let db' := (GenerateOpaqueUserID s concurrent entropy db sectorID username).2 in
  db' = db
  ∨ (LoadUserOpaqueIdentifierBySignature db "openid" sectorID username = (None, None)
     ∧ ∃ u, entropy = Ok u
            ∧ db' = (SaveUserOpaqueIdentifier (concurrent db)
                       {| Service := "openid"; SectorID := sectorID;
                          Username := username; Identifier := u |}).1).
Proof.
  simpl. unfold GenerateOpaqueUserID.
  destruct (LoadUserOpaqueIdentifierBySignature db "openid" sectorID username)
    as [[found|] [err|]]; simpl; auto.
  destruct entropy as [u|err]; simpl; auto.
  right. split; [done|]. exists u. split; [done|].
  by destruct (SaveUserOpaqueIdentifier _ _) as [db' [err|]].
Qed.

(** X8: once a first resolution has saved the identifier and the storage
    reads it back, every later resolution of the same sector and username
    returns the same UUID, whatever the random source gives, and leaves the
    storage as it is. *)
Theorem GetSubject_stable_after_first
    {St : Type} `{!Provider St} (s : OpenIDConnectStore) (db db' : St)
    (sectorID username : string) (u : UUID) (opaqueID : UserOpaqueIdentifier) :
  GenerateOpaqueUserID s id (Ok u) db sectorID username = ((Some opaqueID, None), db') →
  LoadUserOpaqueIdentifierBySignature db' "openid" sectorID username = (Some opaqueID, None) →
  ∀ (concurrent : St → St) (entropy : result UUID),
    GetSubject s concurrent entropy db' sectorID username
    = ((GetSubject s id (Ok u) db sectorID username).1.1, None, db').
Proof.
  intros Hfirst Hback concurrent entropy.
  rewrite (GenerateOpaqueUserID_stored s concurrent entropy db' sectorID username opaqueID Hback).
  unfold GetSubject. by rewrite Hfirst.
Qed.

Lemma GetSubject_stable_after_first_witness :
  let first := GetSubject fixtures.store id (Ok 9%N) memory.empty "example.com" "john" in
  first.1 = (9%N, None)
  ∧ GetSubject fixtures.store id (Ok 11%N) first.2 "example.com" "john" = ((9%N, None), first.2).
Proof.
  intros first. split; [vm_compute; reflexivity|].
  refine (GetSubject_stable_after_first fixtures.store memory.empty first.2
            "example.com" "john" 9%N
            {| Service := "openid"; SectorID := "example.com";
               Username := "john"; Identifier := 9%N |} _ _ id (Ok 11%N));
    vm_compute; reflexivity.
Defined.

(** * Further properties of the consent handlers *)

(** The only answer given while the sessions and the client are resolved is
    the forbidden one. *)
Lemma oidcConsentGetSessionsAndClient_forbidden
    {St : Type} `{!Provider St} (s : OpenIDConnectStore) (ctx : AutheliaCtx) (db : St)
    (answered : Reply) :
  oidcConsentGetSessionsAndClient s ctx db = inl answered → answered = ReplyForbidden.
Proof.
  unfold oidcConsentGetSessionsAndClient.
  destruct (ConsentChallengeID (GetSession ctx)) as [challengeID|]; [|congruence].
  destruct (LoadOAuth2ConsentSessionByChallengeID db challengeID) as [consent|];
    [|congruence].
  destruct (GetFullClient s (ClientID consent)); congruence.
Qed.

Section DecideMore.

Context {St : Type} `{!Provider St}.
Variable json_Unmarshal : string → option ConsentPostRequestBody.
Variable url_Values : Type.
Variable GetForm : OAuth2ConsentSession → option url_Values.
Variable Encode : url_Values → string.
Variable AuthorizationPath : string.
Variable IsAuthenticationLevelSufficient : Client → authentication.Level → bool.
Variable ConsentGetResponseBody : Type.
Variable GetConsentResponseBody : Client → OAuth2ConsentSession → ConsentGetResponseBody.

Variables (s : OpenIDConnectStore) (ctx : AutheliaCtx) (db : St).

Local Abbreviation POST :=
  (oidcConsentPOST json_Unmarshal GetForm Encode AuthorizationPath
     IsAuthenticationLevelSufficient s ctx db).

Local Abbreviation GET :=
  (consent_get.oidcConsent ConsentGetResponseBody GetConsentResponseBody
     IsAuthenticationLevelSufficient s ctx db).

(** X9: a consent decision writes at most once, and its answer tells: either
    nothing is written and the call does not succeed, or the consent-response
    save is called once with the session the handler holds, and the call
    succeeds exactly when that save returns no error, the answer being the
    generic failure otherwise. *)
Theorem oidcConsentPOST_single_write :
  (db_after POST = db ∧ succeeded (reply POST) = false)
  ∨ (∃ consent' authorized err,
       SaveOAuth2ConsentSessionResponse db consent' authorized = (db_after POST, err)
       ∧ consent_after POST = Some consent'
       ∧ (err = None ↔ succeeded (reply POST) = true)
       ∧ (err = None ∨ reply POST = SetJSONError messageOperationFailed)).
Proof.
  unfold oidcConsentPOST.
  destruct (json_Unmarshal (RequestBody ctx)) as [body|]; [|by left].
  destruct (oidcConsentGetSessionsAndClient s ctx db)
    as [answered|[[userSession consent] client]] eqn:Hresolved.
  { apply oidcConsentGetSessionsAndClient_forbidden in Hresolved as ->. by left. }
  destruct (IsAuthenticationLevelSufficient _ _); simpl;
    [|by destruct (OIDCWorkflowSession userSession); left].
  destruct (String.eqb (ClientID consent) (body_ClientID body)); simpl; [|by left].
  destruct (GetForm consent) as [form|]; [|by left].
  destruct (String.eqb (AcceptOrReject body) accept).
  - destruct (ExternalRootURL ctx) as [root|err]; [|by left].
    destruct (SaveOAuth2ConsentSessionResponse db _ true) as [db' [err|]] eqn:Hsave;
      right; do 3 eexists; (split; [exact Hsave|]); simpl;
      (split_and!; [done|split; done|auto]).
  - destruct (String.eqb (AcceptOrReject body) reject); [|by left].
    destruct (SaveOAuth2ConsentSessionResponse db consent false) as [db' [err|]] eqn:Hsave;
      right; do 3 eexists; (split; [exact Hsave|]); simpl;
      (split_and!; [done|split; done|auto]).
Qed.

Lemma oidcConsentGetSessionsAndClient_session (userSession : UserSession)
    (consent : OAuth2ConsentSession) (client : Client) :
  oidcConsentGetSessionsAndClient s ctx db = inr (userSession, consent, client) →
  userSession = GetSession ctx.
Proof.
  unfold oidcConsentGetSessionsAndClient.
  destruct (ConsentChallengeID (GetSession ctx)) as [challengeID|]; [|done].
  destruct (LoadOAuth2ConsentSessionByChallengeID db challengeID) as [loaded|]; [|done].
  destruct (GetFullClient s (ClientID loaded)); [|done]. by intros [= <- _ _].
Qed.

(** What the decision answers once the level is sufficient is never the
    forbidden answer nor a panic. *)
Lemma oidcConsentPOST_refused_only_before (body : ConsentPostRequestBody)
    (userSession : UserSession) (consent : OAuth2ConsentSession) (client : Client) :
  json_Unmarshal (RequestBody ctx) = Some body →
  oidcConsentGetSessionsAndClient s ctx db = inr (userSession, consent, client) →
  IsAuthenticationLevelSufficient client (AuthenticationLevel userSession) = true →
  reply POST ≠ ReplyForbidden ∧ reply POST ≠ Panicked.
Proof.
  intros Hbody Hresolved Hlevel. unfold oidcConsentPOST.
  rewrite Hbody, Hresolved, Hlevel. simpl.
  destruct (String.eqb (ClientID consent) (body_ClientID body)); simpl; [|done].
  destruct (GetForm consent) as [form|]; [|done].
  destruct (String.eqb (AcceptOrReject body) accept).
  - destruct (ExternalRootURL ctx) as [root|err]; [|done].
    by destruct (SaveOAuth2ConsentSessionResponse db _ true) as [db' [err|]].
  - destruct (String.eqb (AcceptOrReject body) reject); [|done].
    by destruct (SaveOAuth2ConsentSessionResponse db consent false) as [db' [err|]].
Qed.

(** X10: the presentation and the decision refuse the same callers, up to
    the panic of the decision: for a decodable body, the GET handler answers
    forbidden exactly when the POST handler answers forbidden or stops on the
    nil workflow session that it reads for its debug message on an
    insufficient level.  The POST handler stops that way only when the user
    session has no workflow session; when it has one, the GET handler answers
    forbidden exactly when the POST handler does. *)
Theorem oidcConsent_forbidden_iff_POST_refused (body : ConsentPostRequestBody) :
  json_Unmarshal (RequestBody ctx) = Some body →
  (GET = inl ReplyForbidden ↔ reply POST = ReplyForbidden ∨ reply POST = Panicked)
  ∧ (reply POST = Panicked → OIDCWorkflowSession (GetSession ctx) = None)
  ∧ (is_Some (OIDCWorkflowSession (GetSession ctx)) →
     (GET = inl ReplyForbidden ↔ reply POST = ReplyForbidden)).
Proof.
  intros Hbody.
  destruct (oidcConsentGetSessionsAndClient s ctx db)
    as [answered|[[userSession consent] client]] eqn:Hresolved.
  { unfold consent_get.oidcConsent, oidcConsentPOST. rewrite Hbody, Hresolved.
    apply oidcConsentGetSessionsAndClient_forbidden in Hresolved as ->. simpl.
    split_and!; [split; auto|done|split; auto]. }
  destruct (IsAuthenticationLevelSufficient client (AuthenticationLevel userSession))
    eqn:Hlevel.
  - destruct (oidcConsentPOST_refused_only_before body userSession consent client
                Hbody Hresolved Hlevel) as [Hforbidden Hpanic].
    unfold consent_get.oidcConsent. rewrite Hresolved, Hlevel. simpl.
    split_and!; [split; [done|by intros [?|?]]|done|split; done].
  - apply oidcConsentGetSessionsAndClient_session in Hresolved as Hsession.
    unfold consent_get.oidcConsent, oidcConsentPOST.
    rewrite Hbody, Hresolved, Hlevel. simpl. subst userSession.
    destruct (OIDCWorkflowSession (GetSession ctx)) as [workflow|]; simpl.
    + split_and!; [split; auto|done|split; auto].
    + split_and!; [split; auto|done|]. by intros [? [=]].
Qed.

Variables (body : ConsentPostRequestBody) (challengeID : UUID)
  (consent : OAuth2ConsentSession) (client : Client) (form : url_Values).
Hypothesis Hbody : json_Unmarshal (RequestBody ctx) = Some body.
Hypothesis Hchallenge : ConsentChallengeID (GetSession ctx) = Some challengeID.
Hypothesis Hconsent : LoadOAuth2ConsentSessionByChallengeID db challengeID = Ok consent.
Hypothesis Hclient : clients s !! ClientID consent = Some client.
Hypothesis Hlevel :
  IsAuthenticationLevelSufficient client (AuthenticationLevel (GetSession ctx)) = true.
Hypothesis Hsame : ClientID consent = body_ClientID body.
Hypothesis Hform : GetForm consent = Some form.

(** X11: a verb that is neither accept nor reject is a bad request: nothing
    is saved and the consent session is left as loaded. *)
Theorem oidcConsentPOST_unexpected_verb :
  AcceptOrReject body ≠ accept →
  AcceptOrReject body ≠ reject →
  reply POST = ReplyBadRequest ∧ db_after POST = db ∧ consent_after POST = Some consent.
Proof.
  intros Ha Hr.
  by rewrite (oidcConsentPOST_other_verb json_Unmarshal url_Values GetForm Encode
                AuthorizationPath IsAuthenticationLevelSufficient s ctx db body challengeID
                consent Hbody Hchallenge Hconsent client form Hclient Hlevel Hsame Hform
                Ha Hr).
Qed.

(** X12: when the external root URL cannot be determined the accept verb
    fails with the generic message before anything is granted: nothing is
    saved and the consent session is left as loaded. *)
Theorem oidcConsentPOST_accept_without_root (err : error) :
  AcceptOrReject body = accept →
  ExternalRootURL ctx = Err err →
  reply POST = SetJSONError messageOperationFailed
  ∧ db_after POST = db ∧ consent_after POST = Some consent.
Proof.
  intros Hverb Hroot. unfold oidcConsentPOST, oidcConsentGetSessionsAndClient.
  rewrite Hbody, Hchallenge, Hconsent, GetFullClient_lookup, Hclient.
  rewrite Hlevel. apply String.eqb_eq in Hsame as ->.
  by rewrite Hform, Hverb, Hroot.
Qed.

(** X13: the reject verb grants nothing: the consent session is handed to the
    consent-response save as it was loaded, with the decision false, and the
    session object keeps its granted scopes and audience. *)
Theorem oidcConsentPOST_reject_grants_nothing :
  AcceptOrReject body = reject →
  consent_after POST = Some consent
  ∧ db_after POST = (SaveOAuth2ConsentSessionResponse db consent false).1
  ∧ ((SaveOAuth2ConsentSessionResponse db consent false).2 = None
     ↔ succeeded (reply POST) = true).
Proof.
  intros Hverb.
  rewrite (oidcConsentPOST_reject json_Unmarshal url_Values GetForm Encode
             AuthorizationPath IsAuthenticationLevelSufficient s ctx db body challengeID
             consent Hbody Hchallenge Hconsent client form Hclient Hlevel Hsame Hform Hverb).
  unfold decision.persisted.
  by destruct (SaveOAuth2ConsentSessionResponse db consent false) as [db' [err|]].
Qed.

End DecideMore.

Lemma oidcConsent_forbidden_iff_POST_refused_witness :
  let session workflow := {| us_Username := "john";
                             AuthenticationLevel := authentication.NotAuthenticated;
                             ConsentChallengeID := Some 1%N;
                             OIDCWorkflowSession := workflow |} in
  let ctx workflow := {| RequestBody := "app1 accept";
                         GetSession := session workflow;
                         ExternalRootURL := Ok "https://auth.example.com" |} in
  let present := Some {| RequiredAuthorizationLevel := authorization.OneFactor |} in
  let db := fixtures.db_with (fixtures.consent Pending) in
  let GET workflow :=
    consent_get.oidcConsent (list string) (λ _ consent, RequestedScopes consent)
      fixtures.sufficient fixtures.store (ctx workflow) db in
  let POST workflow :=
    oidcConsentPOST fixtures.decode fixtures.get_form fixtures.encode fixtures.path
      fixtures.sufficient fixtures.store (ctx workflow) db in
  (GET present = inl ReplyForbidden ∧ reply (POST present) = ReplyForbidden)
  ∧ (GET None = inl ReplyForbidden ∧ reply (POST None) = Panicked).
Proof.
  intros session ctx present db GET POST.
  assert (Hpresent : reply (POST present) = ReplyForbidden) by (vm_compute; reflexivity).
  assert (Hnil : reply (POST None) = Panicked) by (vm_compute; reflexivity).
  split; (split; [|done]).
  - refine (proj2 (proj2 (proj2 (oidcConsent_forbidden_iff_POST_refused fixtures.decode
                     string fixtures.get_form fixtures.encode fixtures.path
                     fixtures.sufficient (list string) (λ _ consent, RequestedScopes consent)
                     fixtures.store (ctx present) db
                     {| body_ClientID := "app1"; AcceptOrReject := "accept" |} _))
                   (ex_intro _ _ eq_refl)) Hpresent).
    vm_compute; reflexivity.
  - refine (proj2 (proj1 (oidcConsent_forbidden_iff_POST_refused fixtures.decode
                     string fixtures.get_form fixtures.encode fixtures.path
                     fixtures.sufficient (list string) (λ _ consent, RequestedScopes consent)
                     fixtures.store (ctx None) db
                     {| body_ClientID := "app1"; AcceptOrReject := "accept" |} _))
                   (or_intror Hnil)).
    vm_compute; reflexivity.
Defined.

Lemma oidcConsentPOST_unexpected_verb_witness :
  let o := fixtures.post "app1 maybe" (fixtures.db_with (fixtures.consent Pending)) in
  reply o = ReplyBadRequest
  ∧ db_after o = fixtures.db_with (fixtures.consent Pending)
  ∧ consent_after o = Some (fixtures.consent Pending).
Proof.
  refine (oidcConsentPOST_unexpected_verb fixtures.decode string fixtures.get_form
       fixtures.encode fixtures.path fixtures.sufficient fixtures.store
       (fixtures.ctx "app1 maybe") (fixtures.db_with (fixtures.consent Pending))
       {| body_ClientID := "app1"; AcceptOrReject := "maybe" |} 1%N
       (fixtures.consent Pending) {| ID := "app1"; Policy := authorization.OneFactor |}
       "client_id=app1&scope=openid+profile" _ _ _ _ _ _ _ _ _);
    vm_compute; (reflexivity || discriminate).
Defined.

Lemma oidcConsentPOST_accept_without_root_witness :
  let ctx := {| RequestBody := "app1 accept";
                GetSession := {| us_Username := "john";
                                 AuthenticationLevel := authentication.TwoFactor;
                                 ConsentChallengeID := Some 1%N;
                                 OIDCWorkflowSession := None |};
                ExternalRootURL := Err (errors_New "missing header X-Forwarded-Host") |} in
  let db := fixtures.db_with (fixtures.consent Pending) in
  db_after (oidcConsentPOST fixtures.decode fixtures.get_form fixtures.encode fixtures.path
              fixtures.sufficient fixtures.store ctx db) = db.
Proof.
  intros ctx db.
  refine (proj1 (proj2 (oidcConsentPOST_accept_without_root fixtures.decode string
       fixtures.get_form fixtures.encode fixtures.path fixtures.sufficient fixtures.store
       ctx db {| body_ClientID := "app1"; AcceptOrReject := "accept" |} 1%N
       (fixtures.consent Pending) {| ID := "app1"; Policy := authorization.OneFactor |}
       "client_id=app1&scope=openid+profile" _ _ _ _ _ _ _
       (errors_New "missing header X-Forwarded-Host") _ _)));
    vm_compute; reflexivity.
Defined.

Lemma oidcConsentPOST_reject_grants_nothing_witness :
  consent_after (fixtures.post "app1 reject" (fixtures.db_with (fixtures.consent Pending)))
  = Some (fixtures.consent Pending).
Proof.
  refine (proj1 (oidcConsentPOST_reject_grants_nothing fixtures.decode string
       fixtures.get_form fixtures.encode fixtures.path fixtures.sufficient fixtures.store
       (fixtures.ctx "app1 reject") (fixtures.db_with (fixtures.consent Pending))
       {| body_ClientID := "app1"; AcceptOrReject := "reject" |} 1%N
       (fixtures.consent Pending) {| ID := "app1"; Policy := authorization.OneFactor |}
       "client_id=app1&scope=openid+profile" _ _ _ _ _ _ _ _));
    vm_compute; reflexivity.
Defined.

(** * Properties of the CORS middleware *)

Section HeaderWrites.

Import fasthttp header_writes.

Lemma put_all_app (l1 l2 : list (string * string)) (resp : Response) :
  put_all (l1 ++ l2)%list resp = put_all l2 (put_all l1 resp).
Proof. unfold put_all. by rewrite foldl_app. Qed.

Lemma put_all_status_body (l : list (string * string)) (resp : Response) :
  StatusCode (put_all l resp) = StatusCode resp ∧ Body (put_all l resp) = Body resp.
Proof.
  induction l as [|kv l IH] using rev_ind; [done|].
  rewrite put_all_app. simpl. exact IH.
Qed.

Lemma last_write_snoc (l : list (string * string)) (kv : string * string) (k : string) :
  last_write (l ++ [kv])%list k = if decide (kv.1 = k) then Some kv.2 else last_write l k.
Proof. unfold last_write. by rewrite foldl_app. Qed.

Lemma lookup_put_all (l : list (string * string)) (resp : Response) (k : string) :
  response_header (put_all l resp) !! k
  = match last_write l k with
    | Some v => Some v
    | None => response_header resp !! k
    end.
Proof.
  induction l as [|kv l IH] using rev_ind; [done|].
  rewrite put_all_app, last_write_snoc. simpl.
  destruct (decide (kv.1 = k)) as [<-|Hne].
  - by rewrite lookup_insert_eq.
  - by rewrite lookup_insert_ne.
Qed.

Lemma last_write_outside (K : list string) (l : list (string * string)) (k : string) :
  Forall (λ kv, kv.1 ∈ K) l → k ∉ K → last_write l k = None.
Proof.
  intros Hall Hk. induction l as [|kv l IH] using rev_ind; [done|].
  apply Forall_app in Hall as [Hl Hkv]. rewrite Forall_singleton in Hkv.
  rewrite last_write_snoc. rewrite decide_False; [by apply IH|].
  intros Heq. apply Hk. by rewrite <- Heq.
Qed.

Lemma Response_eq (r1 r2 : Response) :
  StatusCode r1 = StatusCode r2 → Body r1 = Body r2 →
  response_header r1 = response_header r2 → r1 = r2.
Proof. destruct r1, r2. simpl. by intros -> -> ->. Qed.

Lemma put_all_twice (l : list (string * string)) (resp : Response) :
  put_all l (put_all l resp) = put_all l resp.
Proof.
  apply Response_eq.
  - by rewrite !(proj1 (put_all_status_body _ _)).
  - by rewrite !(proj2 (put_all_status_body _ _)).
  - apply map_eq. intros k. rewrite !lookup_put_all. by destruct (last_write l k).
Qed.

Lemma writes_in_id (K : list string) : writes_in K (λ resp, resp).
Proof. exists []. split; [constructor|done]. Qed.

Lemma writes_in_set (K : list string) (k : string) (v : option string) :
  k ∈ K → writes_in K (λ resp, SetBytesKV resp k v).
Proof.
  intros Hk. exists [(k, bytes.to_string v)]. split; [by constructor|done].
Qed.

Lemma writes_in_comp (K : list string) (f g : Response → Response) :
  writes_in K f → writes_in K g → writes_in K (λ resp, g (f resp)).
Proof.
  intros (lf & Hlf & Hf) (lg & Hlg & Hg). exists (lf ++ lg)%list. split.
  - by apply Forall_app.
  - intros resp. by rewrite Hf, Hg, put_all_app.
Qed.

Lemma writes_in_ext (K : list string) (f g : Response → Response) :
  (∀ resp, f resp = g resp) → writes_in K g → writes_in K f.
Proof.
  intros Hfg (l & Hl & Hg). exists l. split; [done|]. intros resp. by rewrite Hfg.
Qed.

Lemma writes_in_idempotent (K : list string) (f : Response → Response) (resp : Response) :
  writes_in K f → f (f resp) = f resp.
Proof. intros (l & _ & Hf). rewrite !Hf. apply put_all_twice. Qed.

Lemma writes_in_frame (K : list string) (f : Response → Response) (resp : Response) :
  writes_in K f →
  StatusCode (f resp) = StatusCode resp
  ∧ Body (f resp) = Body resp
  ∧ ∀ k, k ∉ K → response_header (f resp) !! k = response_header resp !! k.
Proof.
  intros (l & Hl & Hf). rewrite Hf.
  split_and!; [apply put_all_status_body..|].
  intros k Hk. rewrite lookup_put_all. by rewrite (last_write_outside K l k).
Qed.

End HeaderWrites.

Section CorsFacts.

Import Stdlib.Strings.Ascii.
Import fasthttp cors header_writes.

Variables headerAllow headerVary headerOrigin : string.
Variables headerAccessControlAllowOrigin headerAccessControlAllowCredentials : string.
Variables headerAccessControlMaxAge headerAccessControlRequestMethod : string.
Variables headerAccessControlAllowMethods headerAccessControlRequestHeaders : string.
Variable headerAccessControlAllowHeaders : string.
Variables headerValueVary headerValueMaxAge headerValueFalse headerValueTrue : string.
Variable originValueWildcard : string.
Variable url_Parse : string → option URL.
Variable EqualFold : string → string → bool.
Variable IsStringInSliceFold : string → list string → bool.

Local Abbreviation handleVary' := (handleVary headerVary).
Local Abbreviation handleAllowedMethods' :=
  (handleAllowedMethods headerAccessControlRequestMethod headerAccessControlAllowMethods).
Local Abbreviation allowHeaders' := (allowHeaders headerValueTrue EqualFold).
Local Abbreviation kept_header' := (kept_header headerValueTrue EqualFold).
Local Abbreviation handleAllowedHeaders' :=
  (handleAllowedHeaders headerAccessControlRequestHeaders headerAccessControlAllowHeaders
     headerValueTrue EqualFold IsStringInSliceFold).
Local Abbreviation handleCORS' :=
  (handleCORS headerOrigin headerAccessControlAllowOrigin
     headerAccessControlAllowCredentials headerAccessControlMaxAge
     headerAccessControlRequestMethod headerAccessControlAllowMethods
     headerAccessControlRequestHeaders headerAccessControlAllowHeaders
     headerValueTrue originValueWildcard url_Parse EqualFold IsStringInSliceFold).
Local Abbreviation handle' :=
  (handle headerVary headerOrigin headerAccessControlAllowOrigin
     headerAccessControlAllowCredentials headerAccessControlMaxAge
     headerAccessControlRequestMethod headerAccessControlAllowMethods
     headerAccessControlRequestHeaders headerAccessControlAllowHeaders
     headerValueTrue originValueWildcard url_Parse EqualFold IsStringInSliceFold).
Local Abbreviation HandleOPTIONS' :=
  (HandleOPTIONS headerAllow headerVary headerOrigin headerAccessControlAllowOrigin
     headerAccessControlAllowCredentials headerAccessControlMaxAge
     headerAccessControlRequestMethod headerAccessControlAllowMethods
     headerAccessControlRequestHeaders headerAccessControlAllowHeaders
     headerValueTrue originValueWildcard url_Parse EqualFold IsStringInSliceFold).

(** The response headers of the policy. *)
Local Abbreviation policy_headers :=
  [headerVary; headerAccessControlAllowOrigin; headerAccessControlAllowCredentials;
   headerAccessControlMaxAge; headerAccessControlAllowHeaders;
   headerAccessControlAllowMethods].

Local Ltac in_policy_headers :=
  repeat first [apply list_elem_of_here | apply list_elem_of_further].

Lemma handleVary_writes (p : CORSMiddleware) :
  writes_in policy_headers (handleVary' p).
Proof.
  unfold handleVary. destruct (negb _).
  - apply writes_in_set. in_policy_headers.
  - apply writes_in_id.
Qed.

Lemma handleAllowedMethods_writes (p : CORSMiddleware) (req : Request) :
  writes_in policy_headers (handleAllowedMethods' p req).
Proof.
  unfold handleAllowedMethods. destruct (_ =? _)%nat.
  - destruct (PeekBytes req headerAccessControlRequestMethod).
    + apply writes_in_set. in_policy_headers.
    + apply writes_in_id.
  - apply writes_in_set. in_policy_headers.
Qed.

Lemma handleAllowedHeaders_writes (p : CORSMiddleware) (req : Request) :
  writes_in policy_headers (handleAllowedHeaders' p req).
Proof.
  unfold handleAllowedHeaders. destruct (headers p).
  - destruct (PeekBytes req headerAccessControlRequestHeaders); [|apply writes_in_id].
    destruct (negb _); [|apply writes_in_id].
    apply writes_in_set. in_policy_headers.
  - apply writes_in_set. in_policy_headers.
Qed.

Lemma handleCORS_writes (p : CORSMiddleware) (req : Request) :
  writes_in policy_headers (handleCORS' p req).
Proof.
  unfold handleCORS.
  destruct (url_Parse _) as [originURL|]; [|apply writes_in_id].
  destruct (_ && _); [apply writes_in_id|].
  set (allowed := match default [] (origins p) with [] => _ | _ => _ end).
  destruct allowed as [allowedOrigin|]; [|apply writes_in_id].
  apply (writes_in_comp _ _ (handleAllowedMethods' p req));
    [|apply handleAllowedMethods_writes].
  apply (writes_in_comp _ _ (handleAllowedHeaders' p req));
    [|apply handleAllowedHeaders_writes].
  assert (writes_in policy_headers
            (λ resp, SetBytesKV (SetBytesKV resp headerAccessControlAllowOrigin allowedOrigin)
                       headerAccessControlAllowCredentials (credentials p))) as Hfirst.
  { apply (writes_in_comp _ (λ resp, SetBytesKV resp headerAccessControlAllowOrigin allowedOrigin)
             (λ resp, SetBytesKV resp headerAccessControlAllowCredentials (credentials p)));
      apply writes_in_set; in_policy_headers. }
  destruct (maxAge p) as [age|]; [|exact Hfirst].
  apply (writes_in_comp _ _ (λ resp, SetBytesKV resp headerAccessControlMaxAge (Some age)));
    [exact Hfirst|].
  apply writes_in_set. in_policy_headers.
Qed.

Lemma handle_writes (p : CORSMiddleware) (req : Request) :
  writes_in policy_headers (handle' p req).
Proof.
  unfold handle. destruct (negb (enabled p)); [apply writes_in_id|].
  destruct (negb (varyOnly p)); [|apply handleVary_writes].
  apply (writes_in_comp _ (handleVary' p) (handleCORS' p req));
    [apply handleVary_writes|apply handleCORS_writes].
Qed.

(** X14: the CORS handler only ever sets the six response headers of the
    policy (Vary and the five Access-Control headers): the status code, the
    body and every other response header are left as they are. *)
Theorem handle_touches_policy_headers_only (p : CORSMiddleware) (req : Request)
    (resp : Response) :
  StatusCode (handle' p req resp) = StatusCode resp
  ∧ Body (handle' p req resp) = Body resp
  ∧ ∀ k, k ∉ policy_headers →
         response_header (handle' p req resp) !! k = response_header resp !! k.
Proof. apply (writes_in_frame policy_headers (handle' p req) resp), handle_writes. Qed.

(** X15: the CORS handler is idempotent: running it a second time on the
    response for the same request changes nothing, so a route that has the
    policy both as middleware and in its OPTIONS handler answers as with one. *)
Theorem handle_idempotent (p : CORSMiddleware) (req : Request) (resp : Response) :
  handle' p req (handle' p req resp) = handle' p req resp.
Proof. apply (writes_in_idempotent policy_headers (handle' p req) resp), handle_writes. Qed.

(** X16: the OPTIONS handler always answers 204 without a body, whatever the
    policy and the request; and when the Allow header is not one of the
    policy's headers, it is set to the configured methods if there are any
    and left as it was otherwise. *)
Theorem HandleOPTIONS_no_content (p : CORSMiddleware) (req : Request) (resp : Response) :
  StatusCode (HandleOPTIONS' p req resp) = StatusNoContent
  ∧ Body (HandleOPTIONS' p req resp) = ""
  ∧ (headerAllow ∉ policy_headers →
     response_header (HandleOPTIONS' p req resp) !! headerAllow
     = if (bytes.len (methods p) =? 0)%nat then response_header resp !! headerAllow
       else Some (bytes.to_string (methods p))).
Proof.
  unfold HandleOPTIONS.
  destruct (writes_in_frame policy_headers (handle' p req) (handleOPTIONS headerAllow p resp)
              (handle_writes p req)) as (Hstatus & Hbody & Hframe).
  rewrite Hstatus, Hbody.
  split_and!.
  - unfold handleOPTIONS. by destruct (negb _).
  - unfold handleOPTIONS. by destruct (negb _).
  - intros Hallow. rewrite (Hframe _ Hallow). unfold handleOPTIONS.
    destruct (_ =? _)%nat; simpl; [done|]. by rewrite lookup_insert_eq.
Qed.

(** A policy switched off with [WithEnabled] adds no header at all:
    the middleware hands the response on untouched, and the OPTIONS handler
    does what [HandleOnlyOPTIONS] does. *)
Theorem WithEnabled_false_adds_nothing (p : CORSMiddleware) (req : Request)
    (resp : Response) :
  handle' (WithEnabled p false) req resp = resp
  ∧ HandleOPTIONS' (WithEnabled p false) req resp
    = HandleOnlyOPTIONS headerAllow p resp
  ∧ ∀ next, Middleware headerVary headerOrigin headerAccessControlAllowOrigin
              headerAccessControlAllowCredentials headerAccessControlMaxAge
              headerAccessControlRequestMethod headerAccessControlAllowMethods
              headerAccessControlRequestHeaders headerAccessControlAllowHeaders
              headerValueTrue originValueWildcard url_Parse EqualFold IsStringInSliceFold
              (WithEnabled p false) next req resp = next req resp.
Proof. by split_and!. Qed.

Lemma handleCORS_unconfigured_not_https (p : CORSMiddleware) (req : Request)
    (resp : Response) :
  origins p = None →
  (∀ u, url_Parse (bytes.to_string (PeekBytes req headerOrigin)) = Some u →
        Scheme u ≠ "https") →
  handleCORS' p req resp = resp.
Proof.
  intros Horigins Hscheme. unfold handleCORS.
  destruct (url_Parse _) as [u|] eqn:Hparse; [|done].
  specialize (Hscheme u eq_refl). apply String.eqb_neq in Hscheme.
  by rewrite Hscheme, Horigins.
Qed.

(** X17: under the policy of [NewCORSMiddleware], a request whose Origin
    does not parse to an https URL gets the Vary header and none of the
    Access-Control headers: the response is the one received with Vary set. *)
Theorem NewCORSMiddleware_not_https (req : Request) (resp : Response) :
  headerValueVary ≠ "" →
  (∀ u, url_Parse (bytes.to_string (PeekBytes req headerOrigin)) = Some u →
        Scheme u ≠ "https") →
  handle' (NewCORSMiddleware headerValueVary headerValueMaxAge headerValueFalse) req resp
  = SetBytesKV resp headerVary (Some headerValueVary).
Proof.
  intros Hvary Hscheme. unfold handle. simpl.
  rewrite handleCORS_unconfigured_not_https by done.
  unfold handleVary, bytes.len. simpl.
  destruct headerValueVary; [done|]. done.
Qed.

Lemma allowHeaders_filter (p : CORSMiddleware) (requested : list string) :
  allowHeaders' p requested
  = List.filter (kept_header' p) (map (λ r, gostrings.Trim r " "%char) requested).
Proof.
  unfold allowHeaders.
  enough (∀ acc, foldl
            (λ allowHeaders requested,
               let headerTrimmed := gostrings.Trim requested " "%char in
               if String.eqb headerTrimmed "*" then allowHeaders
               else if bytes.Equal (credentials p) (Some headerValueTrue)
                       || (negb (EqualFold HeaderCookie headerTrimmed)
                           && negb (EqualFold HeaderAuthorization headerTrimmed)
                           && negb (EqualFold HeaderProxyAuthorization headerTrimmed))
                    then (allowHeaders ++ [headerTrimmed])%list
                    else allowHeaders) acc requested
          = (acc ++ List.filter (kept_header' p)
                      (map (λ r, gostrings.Trim r " "%char) requested))%list) as Hgen
    by apply (Hgen []).
  induction requested as [|r requested IH]; intros acc; simpl.
  - by rewrite app_nil_r.
  - rewrite IH. unfold kept_header at 2.
    destruct (String.eqb (gostrings.Trim r " "%char) "*"); simpl; [done|].
    destruct (_ || _); simpl; [|done]. by rewrite <- app_assoc.
Qed.

(** X18: unless the policy allows credentials, the headers echoed from
    Access-Control-Request-Headers never include the wildcard, Cookie,
    Authorization or Proxy-Authorization in any letter case; each echoed
    header is a requested one with its surrounding spaces removed. *)
Theorem allowHeaders_without_credentials (p : CORSMiddleware) (requested : list string)
    (h : string) :
  bytes.Equal (credentials p) (Some headerValueTrue) = false →
  In h (allowHeaders' p requested) →
  h ≠ "*"
  ∧ EqualFold HeaderCookie h = false
  ∧ EqualFold HeaderAuthorization h = false
  ∧ EqualFold HeaderProxyAuthorization h = false
  ∧ ∃ r, In r requested ∧ h = gostrings.Trim r " "%char.
Proof.
  intros Hcred Hin. rewrite allowHeaders_filter in Hin.
  apply filter_In in Hin as [Hin Hkept]. unfold kept_header in Hkept.
  rewrite Hcred in Hkept. simpl in Hkept.
  apply andb_prop in Hkept as [Hstar Hkept].
  apply andb_prop in Hkept as [Hkept Hproxy].
  apply andb_prop in Hkept as [Hcookie Hauth].
  apply negb_true_iff in Hstar, Hcookie, Hauth, Hproxy.
  apply String.eqb_neq in Hstar.
  split_and!; [done..|].
  apply in_map_iff in Hin as (r & <- & Hr). eauto.
Qed.

Lemma match_origins_from (configured : list string) (origin init : option string) :
  originValueWildcard ∉ configured →
  foldl (λ allowedOrigin o,
           if bytes.Equal (Some o) (Some originValueWildcard) then Some originValueWildcard
           else if bytes.Equal (Some o) origin then origin
           else allowedOrigin)
        init configured
  = if decide (bytes.to_string origin ∈ configured) then origin else init.
Proof.
  revert init. induction configured as [|o configured IH]; intros init Hwild;
    cbn [foldl].
  - rewrite decide_False; [done|]. apply not_elem_of_nil.
  - apply not_elem_of_cons in Hwild as [Hne Hwild].
    change (bytes.Equal (Some o) (Some originValueWildcard))
      with (String.eqb o originValueWildcard).
    assert (String.eqb o originValueWildcard = false) as ->
      by (apply String.eqb_neq; congruence).
    change (bytes.Equal (Some o) origin) with (String.eqb o (bytes.to_string origin)).
    destruct (String.eqb o (bytes.to_string origin)) eqn:Ho.
    + apply String.eqb_eq in Ho as ->. rewrite IH by done.
      rewrite (decide_True (P := _ ∈ _ :: _)) by apply list_elem_of_here.
      by destruct (decide _).
    + apply String.eqb_neq in Ho. rewrite IH by done.
      destruct (decide (bytes.to_string origin ∈ configured)) as [Hin|Hnin].
      * rewrite decide_True; [done|]. by apply list_elem_of_further.
      * rewrite decide_False; [done|]. apply not_elem_of_cons. split; congruence.
Qed.

Lemma match_origins_no_wildcard (configured : list string) (origin : option string) :
  originValueWildcard ∉ configured →
  match_origins originValueWildcard configured origin
  = if decide (bytes.to_string origin ∈ configured) then origin else None.
Proof. apply match_origins_from. Qed.

Lemma handleAllowedMethods_other (p : CORSMiddleware) (req : Request) (resp : Response)
    (k : string) :
  k ≠ headerAccessControlAllowMethods →
  response_header (handleAllowedMethods' p req resp) !! k = response_header resp !! k.
Proof.
  intros Hk. unfold handleAllowedMethods.
  destruct (_ =? _)%nat; [destruct (PeekBytes _ _)|]; simpl; try done;
    by rewrite lookup_insert_ne.
Qed.

Lemma handleAllowedHeaders_other (p : CORSMiddleware) (req : Request) (resp : Response)
    (k : string) :
  k ≠ headerAccessControlAllowHeaders →
  response_header (handleAllowedHeaders' p req resp) !! k = response_header resp !! k.
Proof.
  intros Hk. unfold handleAllowedHeaders.
  destruct (headers p); [destruct (PeekBytes _ _); [destruct (negb _)|]|]; simpl;
    try done; by rewrite lookup_insert_ne.
Qed.

(** X19: with a list of allowed origins that has no wildcard, a request
    whose Origin is not in the list gets none of the Access-Control headers:
    the CORS step leaves the response as it is. *)
Theorem handleCORS_origin_not_allowed (p : CORSMiddleware) (req : Request)
    (resp : Response) (configured : list string) :
  origins p = Some configured →
  configured ≠ [] →
  originValueWildcard ∉ configured →
  bytes.to_string (PeekBytes req headerOrigin) ∉ configured →
  handleCORS' p req resp = resp.
Proof.
  intros Horigins Hne Hwild Hnin. unfold handleCORS.
  destruct (url_Parse _) as [u|]; [|done].
  rewrite Horigins. rewrite bool_decide_eq_false_2 by done. rewrite andb_false_r.
  simpl. destruct configured as [|o configured]; [done|].
  rewrite match_origins_no_wildcard by done. by rewrite decide_False.
Qed.

(** X20: with a list of allowed origins that does not hold the wildcard the
    https requirement is not applied: a request whose non-empty Origin parses
    and is one of the listed origins gets
    Access-Control-Allow-Origin set to that origin whatever its scheme, and
    Access-Control-Allow-Credentials set to the policy's value. *)
Theorem handleCORS_listed_origin (p : CORSMiddleware) (req : Request) (resp : Response)
    (configured : list string) (origin : string) (u : URL) :
  NoDup [headerAccessControlAllowOrigin; headerAccessControlAllowCredentials;
         headerAccessControlMaxAge; headerAccessControlAllowHeaders;
         headerAccessControlAllowMethods] →
  origins p = Some configured →
  originValueWildcard ∉ configured →
  PeekBytes req headerOrigin = Some origin →
  origin ∈ configured →
  origin ≠ "" →
  url_Parse origin = Some u →
  response_header (handleCORS' p req resp) !! headerAccessControlAllowOrigin = Some origin
  ∧ response_header (handleCORS' p req resp) !! headerAccessControlAllowCredentials
    = Some (bytes.to_string (credentials p)).
Proof.
  intros Hdup Horigins Hwild Hpeek Hin Hne Hparse. unfold handleCORS.
  rewrite Hpeek. simpl. rewrite Hparse, Horigins.
  rewrite bool_decide_eq_false_2 by done. rewrite andb_false_r. simpl.
  destruct configured as [|o configured]; [by apply not_elem_of_nil in Hin|].
  rewrite match_origins_no_wildcard by done. simpl. rewrite decide_True by done.
  assert ((bytes.len (Some origin) =? 0)%nat = false) as ->.
  { unfold bytes.len. simpl. by destruct origin. }
  apply NoDup_cons in Hdup as [Hao Hdup]. apply NoDup_cons in Hdup as [Hac _].
  rewrite !not_elem_of_cons in Hao. rewrite !not_elem_of_cons in Hac.
  destruct Hao as (Hao1 & Hao2 & Hao3 & Hao4 & _). destruct Hac as (Hac2 & Hac3 & Hac4 & _).
  split.
  - rewrite handleAllowedMethods_other, handleAllowedHeaders_other by done.
    destruct (maxAge p); simpl; rewrite ?(lookup_insert_ne _ headerAccessControlMaxAge) by done;
      rewrite lookup_insert_ne by done; by rewrite lookup_insert_eq.
  - rewrite handleAllowedMethods_other, handleAllowedHeaders_other by done.
    destruct (maxAge p); simpl; rewrite ?(lookup_insert_ne _ headerAccessControlMaxAge) by done;
      by rewrite lookup_insert_eq.
Qed.

Lemma copy_origins_spec (origins' originsValue : list string) :
  copy_origins origins' originsValue
  = if decide ("*" ∈ origins') then ["*"] else (originsValue ++ origins')%list.
Proof.
  revert originsValue. induction origins' as [|o origins' IH]; intros originsValue;
    cbn [copy_origins].
  - rewrite decide_False by apply not_elem_of_nil. by rewrite app_nil_r.
  - destruct (String.eqb o "*") eqn:Ho.
    + apply String.eqb_eq in Ho as ->. by rewrite decide_True by apply list_elem_of_here.
    + apply String.eqb_neq in Ho. rewrite IH.
      destruct (decide ("*" ∈ origins')) as [Hin|Hnin].
      * by rewrite decide_True by by apply list_elem_of_further.
      * rewrite decide_False; [by rewrite <- app_assoc|].
        apply not_elem_of_cons. split; congruence.
Qed.

Lemma WithAllowedOrigins_kept (p : CORSMiddleware) (origins' : list string) :
  origins (WithAllowedOrigins p origins')
  = (if decide (origins' = []) then None
     else if decide ("*" ∈ origins') then Some ["*"] else Some origins').
Proof.
  unfold WithAllowedOrigins. cbn [origins].
  destruct origins' as [|o origins']; [done|].
  rewrite decide_False by done. rewrite copy_origins_spec.
  by destruct (decide _).
Qed.

(** X21: [WithAllowedOrigins] without arguments removes the configured
    origins; with the wildcard among its arguments it keeps the wildcard
    alone, whatever else is listed; otherwise it keeps the arguments as
    given.  No other setting of the policy changes. *)
Theorem WithAllowedOrigins_origins (p : CORSMiddleware) (origins' : list string) :
  origins (WithAllowedOrigins p origins')
  = (if decide (origins' = []) then None
     else if decide ("*" ∈ origins') then Some ["*"] else Some origins')
  ∧ WithAllowedOrigins p origins'
    = {| enabled := enabled p; varyOnly := varyOnly p; methods := methods p;
         headers := headers p; origins := origins (WithAllowedOrigins p origins');
         credentials := credentials p; vary := vary p; maxAge := maxAge p |}.
Proof.
  split; [apply WithAllowedOrigins_kept|done].
Qed.

(** X22: once the wildcard is among the origins given to
    [WithAllowedOrigins], every request whose Origin parses gets
    Access-Control-Allow-Origin set to the wildcard, whatever its origin and
    scheme. *)
Theorem WithAllowedOrigins_wildcard (p : CORSMiddleware) (origins' : list string)
    (req : Request) (resp : Response) (u : URL) :
  NoDup [headerAccessControlAllowOrigin; headerAccessControlAllowCredentials;
         headerAccessControlMaxAge; headerAccessControlAllowHeaders;
         headerAccessControlAllowMethods] →
  originValueWildcard = "*" →
  "*" ∈ origins' →
  url_Parse (bytes.to_string (PeekBytes req headerOrigin)) = Some u →
  response_header (handleCORS' (WithAllowedOrigins p origins') req resp)
    !! headerAccessControlAllowOrigin = Some "*".
Proof.
  intros Hdup Hwild Hin Hparse. unfold handleCORS. rewrite Hparse.
  rewrite WithAllowedOrigins_kept.
  rewrite decide_False by (intros ->; by apply not_elem_of_nil in Hin).
  rewrite decide_True by done.
  rewrite bool_decide_eq_false_2 by done. rewrite andb_false_r.
  cbn [default from_option id match_origins foldl]. rewrite Hwild.
  change (bytes.Equal (Some "*") (Some "*")) with true. cbn iota.
  change ((bytes.len (Some "*") =? 0)%nat) with false. cbn iota.
  apply NoDup_cons in Hdup as [Hao _]. rewrite !not_elem_of_cons in Hao.
  destruct Hao as (Hao1 & Hao2 & Hao3 & Hao4 & _).
  rewrite handleAllowedMethods_other, handleAllowedHeaders_other by done.
  destruct (maxAge (WithAllowedOrigins p origins')); simpl;
    rewrite ?(lookup_insert_ne _ headerAccessControlMaxAge) by done;
    rewrite lookup_insert_ne by done; by rewrite lookup_insert_eq.
Qed.

End CorsFacts.

(** The default policy and a request from an http origin. *)
Lemma NewCORSMiddleware_not_https_witness :
  cors_fixtures.run cors_fixtures.new_policy
    (cors_fixtures.request "http://app.example.com") cors_fixtures.blank
  = fasthttp.SetBytesKV cors_fixtures.blank "Vary" (Some "Accept-Encoding, Origin").
Proof.
  refine (NewCORSMiddleware_not_https "Vary" "Origin" "Access-Control-Allow-Origin"
            "Access-Control-Allow-Credentials" "Access-Control-Max-Age"
            "Access-Control-Request-Method" "Access-Control-Allow-Methods"
            "Access-Control-Request-Headers" "Access-Control-Allow-Headers"
            "Accept-Encoding, Origin" "100" "false" "true" "*"
            cors_fixtures.parse cors_fixtures.fold_equal cors_fixtures.in_slice_fold
            (cors_fixtures.request "http://app.example.com") cors_fixtures.blank _ _).
  - discriminate.
  - intros u Hparse. vm_compute in Hparse. injection Hparse as <-. vm_compute. discriminate.
Defined.

(** The headers requested by the example request, under the default policy. *)
Lemma allowHeaders_without_credentials_witness :
  In "X-Token" (cors_fixtures.echoed cors_fixtures.new_policy
                  ["X-Token"; " Cookie "; " *"; "authorization"])
  ∧ cors_fixtures.fold_equal "Cookie" "X-Token" = false.
Proof.
  assert (Hin : In "X-Token" (cors_fixtures.echoed cors_fixtures.new_policy
                                ["X-Token"; " Cookie "; " *"; "authorization"]))
    by (vm_compute; left; reflexivity).
  split; [exact Hin|].
  refine (proj1 (proj2 (allowHeaders_without_credentials "true" cors_fixtures.fold_equal
                          cors_fixtures.new_policy
                          ["X-Token"; " Cookie "; " *"; "authorization"] "X-Token" _ Hin))).
  vm_compute; reflexivity.
Defined.

(** Two origins are allowed; the request comes from a third. *)
Lemma handleCORS_origin_not_allowed_witness :
  cors_fixtures.step
    (cors.WithAllowedOrigins cors_fixtures.new_policy
       ["https://a.example.com"; "http://b.example.com"])
    (cors_fixtures.request "https://c.example.com") cors_fixtures.blank
  = cors_fixtures.blank.
Proof.
  refine (handleCORS_origin_not_allowed "Origin" "Access-Control-Allow-Origin"
            "Access-Control-Allow-Credentials" "Access-Control-Max-Age"
            "Access-Control-Request-Method" "Access-Control-Allow-Methods"
            "Access-Control-Request-Headers" "Access-Control-Allow-Headers" "true" "*"
            cors_fixtures.parse cors_fixtures.fold_equal cors_fixtures.in_slice_fold
            _ (cors_fixtures.request "https://c.example.com") cors_fixtures.blank
            ["https://a.example.com"; "http://b.example.com"] _ _ _ _).
  - vm_compute; reflexivity.
  - discriminate.
  - apply (bool_decide_unpack _). vm_compute. exact I.
  - apply (bool_decide_unpack _). vm_compute. exact I.
Defined.

(** The request comes from the listed http origin. *)
Lemma handleCORS_listed_origin_witness :
  fasthttp.response_header
    (cors_fixtures.step
       (cors.WithAllowedOrigins cors_fixtures.new_policy
          ["https://a.example.com"; "http://b.example.com"])
       (cors_fixtures.request "http://b.example.com") cors_fixtures.blank)
    !! "Access-Control-Allow-Origin" = Some "http://b.example.com".
Proof.
  refine (proj1 (handleCORS_listed_origin "Origin" "Access-Control-Allow-Origin"
            "Access-Control-Allow-Credentials" "Access-Control-Max-Age"
            "Access-Control-Request-Method" "Access-Control-Allow-Methods"
            "Access-Control-Request-Headers" "Access-Control-Allow-Headers" "true" "*"
            cors_fixtures.parse cors_fixtures.fold_equal cors_fixtures.in_slice_fold
            _ (cors_fixtures.request "http://b.example.com") cors_fixtures.blank
            ["https://a.example.com"; "http://b.example.com"] "http://b.example.com"
            {| cors.Scheme := "http" |} _ _ _ _ _ _ _)).
  - apply (bool_decide_unpack _). vm_compute. exact I.
  - vm_compute; reflexivity.
  - apply (bool_decide_unpack _). vm_compute. exact I.
  - vm_compute; reflexivity.
  - apply (bool_decide_unpack _). vm_compute. exact I.
  - discriminate.
  - vm_compute; reflexivity.
Defined.

(** The wildcard is given among other origins. *)
Lemma WithAllowedOrigins_wildcard_witness :
  fasthttp.response_header
    (cors_fixtures.step
       (cors.WithAllowedOrigins cors_fixtures.new_policy ["https://a.example.com"; "*"])
       (cors_fixtures.request "http://b.example.com") cors_fixtures.blank)
    !! "Access-Control-Allow-Origin" = Some "*".
Proof.
  refine (WithAllowedOrigins_wildcard "Origin" "Access-Control-Allow-Origin"
            "Access-Control-Allow-Credentials" "Access-Control-Max-Age"
            "Access-Control-Request-Method" "Access-Control-Allow-Methods"
            "Access-Control-Request-Headers" "Access-Control-Allow-Headers" "true" "*"
            cors_fixtures.parse cors_fixtures.fold_equal cors_fixtures.in_slice_fold
            cors_fixtures.new_policy ["https://a.example.com"; "*"]
            (cors_fixtures.request "http://b.example.com") cors_fixtures.blank
            {| cors.Scheme := "http" |} _ _ _ _).
  - apply (bool_decide_unpack _). vm_compute. exact I.
  - reflexivity.
  - apply (bool_decide_unpack _). vm_compute. exact I.
  - vm_compute; reflexivity.
Defined.

(** * Properties of the configuration key tables *)

(** X23: the key tables are consistent: no valid key is listed twice; every
    replaced key is replaced by a valid key, and is itself neither a valid
    key nor a key with a specific error; so following a replacement once
    always ends on a valid key.  No key with a specific error is valid. *)
Theorem validator_key_tables_consistent :
  NoDup validator.ValidKeys
  ∧ NoDup (validator.replacedKeys.*1)
  ∧ NoDup (validator.specificErrorKeys.*1)
  ∧ Forall (λ kv, (kv.2 ∈ validator.ValidKeys)
                  ∧ (kv.1 ∉ validator.ValidKeys)
                  ∧ (kv.1 ∉ validator.specificErrorKeys.*1)
                  ∧ (kv.2 ∉ validator.replacedKeys.*1)
                  ∧ (kv.2 ∉ validator.specificErrorKeys.*1))
      validator.replacedKeys
  ∧ Forall (λ kv, kv.1 ∉ validator.ValidKeys) validator.specificErrorKeys.
Proof.
  split_and!; apply (bool_decide_unpack _); vm_compute; exact I.
Qed.
